(** * Attendance service (main.py): a shallow embedding and its properties

    The service keeps two tables, [students] and [attendance], behind a
    handful of request handlers.  The handlers are embedded here as
    functions over an explicit store, in a small state-and-exception monad:
    a Python [raise] is the [Raise] outcome, the [try ... except Exception]
    blocks are [try_except], and the committed contents of the database are
    the state that every handler threads. *)

From Stdlib Require Import ZArith List String Ascii Bool Lia DecimalString
  DecimalNat Permutation.
Import ListNotations.
Local Open Scope string_scope.
Local Open Scope Z_scope.
Set Warnings "-register-all,-abstract-large-number".

(* ------------------------------------------------------------------ *)
(** ** Dates ([datetime.date]) *)

Module datetime.

Record date : Type := mkdate { year : nat; month : nat; day : nat }.

Definition eqb (a b : date) : bool :=
    Nat.eqb (year a) (year b) && Nat.eqb (month a) (month b)
    && Nat.eqb (day a) (day b).

  (** Decimal digits of a number, without padding. *)
Definition digits (n : nat) : string :=
    NilEmpty.string_of_uint (Nat.to_uint n).

Fixpoint zeros (k : nat) : string :=
    match k with
    | O => EmptyString
    | S k' => String "0" (zeros k')
    end.

  (** Left padding with zeros up to [width] characters. *)
Definition zfill (width : nat) (s : string) : string :=
    zeros (width - String.length s) ++ s.

  (** [d.strftime("%Y-%m-%d")].  [%Y] is the year in decimal as the C
      library prints it, without leading zeros: a year below 1000 takes
      fewer than four characters ([date(999, 3, 5)] gives ["999-03-05"]).
      [%m] and [%d] are padded with zeros to two characters. *)
Definition strftime (d : date) : string :=
    digits (year d) ++ "-" ++ zfill 2 (digits (month d))
    ++ "-" ++ zfill 2 (digits (day d)).

End datetime.

(* ------------------------------------------------------------------ *)
(** ** Python values, exceptions and outcomes *)

(** The values a decoded JSON body or a module-level name can hold.
    [PyObject ty] stands for an object of class [ty] whose contents play no
    part here (functions, classes, the engine). *)
Inductive PyVal : Type :=
| PyNone
| PyBool (b : bool)
| PyInt (z : Z)
| PyStr (s : string)
| PyDate (d : datetime.date)
| PyList (l : list PyVal)
| PyDict (items : list (string * PyVal))
| PyObject (ty : string).

(** A [dict] with string keys, in insertion order. *)
Definition dict : Type := list (string * PyVal).

Inductive Exn : Type :=
| NameError (name : string)
| AttributeError (ty attr : string)
| TypeError (msg : string)
| StatementError (msg : string)
| OverflowError (msg : string)
| IntegrityError (msg : string)
| HTTPException (status_code : Z) (detail : string).

Inductive result (A : Type) : Type :=
| Return (a : A)
| Raise (e : Exn).
Arguments Return {A} a.
Arguments Raise {A} e.

(** [str(e)] for the exceptions above. *)
Definition Z_to_string (z : Z) : string :=
  NilEmpty.string_of_int (Z.to_int z).

Definition str_exn (e : Exn) : string :=
  match e with
  | NameError n => "name '" ++ n ++ "' is not defined"
  | AttributeError ty a => "'" ++ ty ++ "' object has no attribute '" ++ a ++ "'"
  | TypeError m => m
  | StatementError m => m
  | OverflowError m => m
  | IntegrityError m => m
  | HTTPException c d => Z_to_string c ++ ": " ++ d
  end.

(** [s.startswith(p)]. *)
Definition startswith (s p : string) : bool := String.prefix p s.

(** Lookup of a key in a [dict] (first binding wins; keys are unique). *)
Fixpoint dict_get (d : dict) (k : string) : option PyVal :=
  match d with
  | [] => None
  | (k', v) :: d' => if String.eqb k' k then Some v else dict_get d' k
  end.

(** The attributes of the built-in [dict] type that are not dunder names.
    An attribute access [d.a] on a [dict] finds [a] here or raises
    [AttributeError]: keys of the mapping are not attributes. *)
Definition dict_attributes : list string :=
  ["clear"; "copy"; "fromkeys"; "get"; "items"; "keys"; "pop"; "popitem";
   "setdefault"; "update"; "values"].

Definition dict_getattr (d : dict) (attr : string) : result PyVal :=
  if existsb (String.eqb attr) dict_attributes
  then Return (PyObject "builtin_function_or_method")
  else Raise (AttributeError "dict" attr).

(** [v == ""]. *)
Definition py_eq_str (v : PyVal) (s : string) : bool :=
  match v with
  | PyStr t => String.eqb t s
  | _ => false
  end.

(** [str(v)] as an f-string renders it (containers are not rendered
    element by element: no handler formats one). *)
Definition py_str (v : PyVal) : string :=
  match v with
  | PyNone => "None"
  | PyBool true => "True"
  | PyBool false => "False"
  | PyInt z => Z_to_string z
  | PyStr s => s
  | PyDate d => datetime.strftime d
  | PyList _ => "[...]"
  | PyDict _ => "{...}"
  | PyObject ty => "<" ++ ty ++ ">"
  end.

(** [d.m()]: the attribute is looked up first, then called without
    arguments. *)
Definition dict_call (d : dict) (m : string) : result PyVal :=
  match dict_getattr d m with
  | Raise e => Raise e
  | Return _ =>
      if String.eqb m "copy" then Return (PyDict d)
      else if String.eqb m "keys" then Return (PyList (map (fun kv => PyStr (fst kv)) d))
      else if String.eqb m "values" then Return (PyList (map snd d))
      else if String.eqb m "clear" then Return PyNone
      else Raise (TypeError (m ++ "() called without its arguments"))
  end.

(* ------------------------------------------------------------------ *)
(** ** ORM rows, schemas and the store *)

Module StudentORM.
Record t : Type := mk { id : Z; name : string; class_name : string }.
End StudentORM.

(** Columns carry the types the [Attendance] schema gives them. *)
Module AttendanceORM.
Record t : Type := mk
    { id : Z; student_id : Z; date : datetime.date; status : string;
      is_deleted : bool }.

  (** [record.is_deleted = b]. *)
Definition set_is_deleted (b : bool) (a : t) : t :=
    mk (id a) (student_id a) (date a) (status a) b.
End AttendanceORM.

Module PostStudent.
Record t : Type := mk { name : string; class_name : string }.

  (** [student.dict()]. *)
Definition dict (s : t) : PyVal :=
    PyDict [("name", PyStr (name s)); ("class_name", PyStr (class_name s))].
End PostStudent.

Module Attendance.
Record t : Type := mk
    { student_id : Z; date : datetime.date; status : string;
      is_deleted : bool }.

  (** [Attendance(id=..., student_id=..., date=..., status=...,
      is_deleted=...)]: the schema declares no [id] field, so the keyword
      is dropped. *)
Definition init (id student_id : Z) (date : datetime.date)
      (status : string) (is_deleted : bool) : t :=
    mk student_id date status is_deleted.

Definition eqb (a b : t) : bool :=
    Z.eqb (student_id a) (student_id b)
    && datetime.eqb (date a) (date b)
    && String.eqb (status a) (status b)
    && Bool.eqb (is_deleted a) (is_deleted b).
End Attendance.

Module ResponseModel.
Record t : Type := mk
    { request_method : string; param : PyVal; record : string;
      data : string }.
End ResponseModel.

(** The committed contents of the database: both tables in the order a
    scan returns their rows, the order of the integer primary keys.  This
    is the order of insertion as long as keys are handed out increasing. *)
Record Store : Type := mkStore
  { students : list StudentORM.t; attendance : list AttendanceORM.t }.

(* ------------------------------------------------------------------ *)
(** ** The handler monad: store passing with exceptions *)

Definition M (A : Type) : Type := Store -> result A * Store.

Definition ret {A} (a : A) : M A := fun db => (Return a, db).

Definition raise {A} (e : Exn) : M A := fun db => (Raise e, db).

Definition bind {A B} (c : M A) (k : A -> M B) : M B :=
  fun db =>
    match c db with
    | (Return a, db') => k a db'
    | (Raise e, db') => (Raise e, db')
    end.

(** [try: body  except Exception as e: handler]. *)
Definition try_except {A} (body : M A) (handler : Exn -> M A) : M A :=
  fun db =>
    match body db with
    | (Return a, db') => (Return a, db')
    | (Raise e, db') => handler e db'
    end.

(** A computation that does not touch the store. *)
Definition lift {A} (r : result A) : M A := fun db => (r, db).

Notation "x <- c ;; k" := (bind c (fun x => k))
  (at level 61, c at next level, right associativity).
Notation "c ;;; k" := (bind c (fun _ => k))
  (at level 61, right associativity).

(* ------------------------------------------------------------------ *)
(** ** Session primitives *)

(** [db.query(T).filter(p).first()]. *)
Definition query_first {R} (table : Store -> list R) (p : R -> bool)
  : M (option R) :=
  fun db => (Return (find p (table db)), db).

(** [db.query(T).filter(p).all()], and [db.query(T).all()] with the
    constant filter. *)
Definition query_all {R} (table : Store -> list R) (p : R -> bool)
  : M (list R) :=
  fun db => (Return (filter p (table db)), db).

(** An INTEGER of the database is a signed 64-bit number. *)
Definition MIN_ROWID : Z := - 2 ^ 63.
Definition MAX_ROWID : Z := 2 ^ 63 - 1.

Definition sqlite_integer (z : Z) : bool :=
  (MIN_ROWID <=? z) && (z <=? MAX_ROWID).

(** A Python [int] bound as a statement parameter: one that does not fit
    makes the driver raise [OverflowError] before any row is read. *)
Definition bind_integer (z : Z) : result Z :=
  if sqlite_integer z then Return z
  else Raise (OverflowError
                "Python int too large to convert to SQLite INTEGER").

(** The same for a Python value compared with an integer column. *)
Definition bind_value (v : PyVal) : result PyVal :=
  match v with
  | PyInt z =>
      match bind_integer z with
      | Return _ => Return v
      | Raise e => Raise e
      end
  | _ => Return v
  end.

(** The least key from [k] on that no row carries, looking at no more than
    [fuel] keys in use. *)
Fixpoint least_unused (fuel : nat) (k : Z) (ids : list Z) : Z :=
  match fuel with
  | O => k
  | S fuel' =>
      if existsb (Z.eqb k) ids then least_unused fuel' (k + 1) ids else k
  end.

(** The integer primary key the database hands to a new row: 1 in an empty
    table, otherwise one more than the largest key in use.  When the
    largest key is already [MAX_ROWID] the engine draws positive keys at
    random until it meets one not in use; the least positive key not in
    use stands for that draw, and nothing below is stated about which key
    is drawn. *)
Definition next_id (ids : list Z) : Z :=
  match ids with
  | [] => 1
  | z :: zs =>
      let largest := fold_right Z.max z zs in
      if largest <? MAX_ROWID then largest + 1
      else least_unused (List.length ids) 1 ids
  end.

(** A new row takes its place among the keys of the table: the last place
    when its key is the largest, as it is for every key handed out as the
    largest plus one. *)
Fixpoint insert_by_key {R} (key : R -> Z) (row : R) (rows : list R)
  : list R :=
  match rows with
  | [] => [row]
  | r :: rows' =>
      if key row <? key r then row :: rows
      else r :: insert_by_key key row rows'
  end.

(** [db.add(row); db.commit(); db.refresh(row)] for a student: the row is
    stored under its assigned key and handed back. *)
Definition add_commit_student (name class_name : string)
  : M StudentORM.t :=
  fun db =>
    let row := StudentORM.mk (next_id (map StudentORM.id (students db)))
                 name class_name in
    (Return row,
     mkStore (insert_by_key StudentORM.id row (students db))
       (attendance db)).

(** The same for an attendance row.  A row built with an explicit key
    keeps it, unless the key does not fit or is taken. *)
Definition add_commit_attendance (id : option Z) (student_id : Z)
    (date : datetime.date) (status : string) (is_deleted : bool)
  : M AttendanceORM.t :=
  fun db =>
    let ids := map AttendanceORM.id (attendance db) in
    let store k :=
      let row := AttendanceORM.mk k student_id date status is_deleted in
      (Return row,
       mkStore (students db)
         (insert_by_key AttendanceORM.id row (attendance db))) in
    match bind_integer student_id, id with
    | Raise e, _ => (Raise e, db)
    | Return _, None => store (next_id ids)
    | Return _, Some k =>
        match bind_integer k with
        | Raise e => (Raise e, db)
        | Return _ =>
            if existsb (Z.eqb k) ids
            then (Raise (IntegrityError
                           "UNIQUE constraint failed: attendance.id"), db)
            else store k
        end
    end.

(** [record.is_deleted = b; db.commit()]: the flush updates the row whose
    primary key is that of [record]. *)
Definition assign_is_deleted_commit (record : AttendanceORM.t) (b : bool)
  : M unit :=
  fun db =>
    (Return tt,
     mkStore (students db)
       (map (fun a =>
               if AttendanceORM.id a =? AttendanceORM.id record
               then AttendanceORM.set_is_deleted b a else a)
          (attendance db))).

(** [StudentORM.id == v] for a Python value [v]. *)
Definition py_eq_int (v : PyVal) (z : Z) : bool :=
  match v with
  | PyInt z' => z' =? z
  | PyBool b => (if b then 1 else 0) =? z
  | _ => false
  end.

(** The constructor call of [AttendanceORM] on an unpacked mapping of
    keywords, up to the flush: every keyword must name a column, and the values must have the column types ([is_deleted] falls
    back to its default [False]). *)
Definition AttendanceORM_columns : list string :=
  ["id"; "student_id"; "date"; "status"; "is_deleted"].

(** The key a keyword mapping asks for: none when [id] is missing or
    [None]. *)
Definition AttendanceORM_id (kw : dict) : result (option Z) :=
  match dict_get kw "id" with
  | None | Some PyNone => Return None
  | Some (PyInt k) => Return (Some k)
  | Some _ => Raise (StatementError "id: not an integer value")
  end.

Definition AttendanceORM_init (kwargs : PyVal)
  : result (option Z * Z * datetime.date * string * bool) :=
  match kwargs with
  | PyDict kw =>
      match find (fun kv => negb (existsb (String.eqb (fst kv))
                                    AttendanceORM_columns)) kw with
      | Some (k, _) =>
          Raise (TypeError ("'" ++ k ++ "' is an invalid keyword argument for AttendanceORM"))
      | None =>
          match dict_get kw "student_id", dict_get kw "date",
                dict_get kw "status" with
          | Some (PyInt sid), Some (PyDate d), Some (PyStr st) =>
              match AttendanceORM_id kw, dict_get kw "is_deleted" with
              | Raise e, _ => Raise e
              | Return id, None => Return (id, sid, d, st, false)
              | Return id, Some (PyBool b) => Return (id, sid, d, st, b)
              | Return _, Some _ =>
                  Raise (StatementError "is_deleted: not a boolean value")
              end
          | _, _, _ => Raise (StatementError "a column value has the wrong type")
          end
      end
  | _ => Raise (TypeError "argument after ** must be a mapping")
  end.

(* ------------------------------------------------------------------ *)
(** ** Students routes *)

Definition add_student (student : PostStudent.t) : M ResponseModel.t :=
  try_except
    (existing <- query_first students
                   (fun s => String.eqb (StudentORM.name s)
                               (PostStudent.name student)) ;;
     match existing with
     | Some _ => raise (HTTPException 400 "Student already exists")
     | None =>
         db_student <- add_commit_student (PostStudent.name student)
                         (PostStudent.class_name student) ;;
         ret (ResponseModel.mk "POST" (PostStudent.dict student) "Student"
                "Successfully Added Student.")
     end)
    (fun e =>
       ret (ResponseModel.mk "POST" (PostStudent.dict student) "Student"
              ("Error occurred: " ++ str_exn e))).

Definition get_students : M (list PostStudent.t) :=
  students <- query_all students (fun _ => true) ;;
  ret (map (fun s => PostStudent.mk (StudentORM.name s)
                       (StudentORM.class_name s)) students).

(* ------------------------------------------------------------------ *)
(** ** Attendance routes *)

(** The names bound at module level once main.py is loaded: its imports,
    its assignments, its classes and its functions.  A name read inside a
    function that the function does not assign is looked up here (the
    builtins scope, searched next, binds no name [x]). *)
Definition module_globals : dict :=
  [("FastAPI", PyObject "type"); ("HTTPException", PyObject "type");
   ("Path", PyObject "function"); ("Depends", PyObject "function");
   ("BaseModel", PyObject "type"); ("List", PyObject "typing");
   ("Dict", PyObject "typing"); ("date", PyObject "type");
   ("Column", PyObject "type"); ("Integer", PyObject "type");
   ("String", PyObject "type"); ("Boolean", PyObject "type");
   ("Date", PyObject "type"); ("create_engine", PyObject "function");
   ("ForeignKey", PyObject "type");
   ("declarative_base", PyObject "function");
   ("sessionmaker", PyObject "type");
   ("relationship", PyObject "function"); ("Session", PyObject "type");
   ("DATABASE_URL", PyStr "sqlite:///./attendance.db");
   ("engine", PyObject "Engine"); ("SessionLocal", PyObject "sessionmaker");
   ("Base", PyObject "type"); ("get_db", PyObject "function");
   ("StudentORM", PyObject "type"); ("AttendanceORM", PyObject "type");
   ("PostStudent", PyObject "type"); ("Attendance", PyObject "type");
   ("ResponseModel", PyObject "type"); ("app", PyObject "FastAPI");
   ("add_student", PyObject "function");
   ("get_students", PyObject "function");
   ("attendance_isValid", PyObject "function");
   ("add_attendance", PyObject "function");
   ("get_all_attendance", PyObject "function");
   ("get_active_attendance", PyObject "function");
   ("get_deleted_attendance", PyObject "function");
   ("delete_attendance", PyObject "function");
   ("restore_attendance", PyObject "function")].

(** Reading a global name. *)
Definition load_global (globals : dict) (name : string) : result PyVal :=
  match dict_get globals name with
  | Some v => Return v
  | None => Raise (NameError name)
  end.

(** The body of [attendance_isValid] in a given global scope: the test
    reads the name [x], which the function neither receives nor assigns,
    and never looks at [data]. *)
Definition attendance_isValid_in (globals : dict) (data : dict)
  : result bool :=
  match load_global globals "x" with
  | Raise e => Raise e
  | Return x => if py_eq_str x "" then Return true else Return false
  end.

Definition attendance_isValid (data : dict) : result bool :=
  attendance_isValid_in module_globals data.

Definition add_attendance (new_attendance_data : dict)
  : M ResponseModel.t :=
  try_except
    (valid <- lift (attendance_isValid new_attendance_data) ;;
     if negb valid
     then raise (HTTPException 404 "Invalid Input Paramters")
     else
       sid <- lift (dict_getattr new_attendance_data "student_id") ;;
       sid <- lift (bind_value sid) ;;
       student <- query_first students
                    (fun s => py_eq_int sid (StudentORM.id s)) ;;
       match student with
       | None => raise (HTTPException 404 "Student not found")
       | Some _ =>
           kwargs <- lift (dict_call new_attendance_data "dict") ;;
           fields <- lift (AttendanceORM_init kwargs) ;;
           let '(id, student_id, date, status, is_deleted) := fields in
           db_attendance <- add_commit_attendance id student_id date status
                              is_deleted ;;
           param <- lift (dict_call new_attendance_data "dict") ;;
           sid' <- lift (dict_getattr new_attendance_data "student_id") ;;
           ret (ResponseModel.mk "POST" param "Attendance"
                  ("Attendance added successfully for student_id "
                   ++ py_str sid'))
       end)
    (fun e =>
       param <- lift (dict_call new_attendance_data "dict") ;;
       ret (ResponseModel.mk "POST" param "Attendance"
              ("Error occurred: " ++ str_exn e))).

(** The response row built from a table row. *)
Definition Attendance_of (a : AttendanceORM.t) : Attendance.t :=
  Attendance.init (AttendanceORM.id a) (AttendanceORM.student_id a)
    (AttendanceORM.date a) (AttendanceORM.status a)
    (AttendanceORM.is_deleted a).

Definition get_all_attendance : M (list Attendance.t) :=
  records <- query_all attendance (fun _ => true) ;;
  ret (map Attendance_of records).

Definition get_active_attendance (day_month : string)
  : M (list Attendance.t) :=
  records <- query_all attendance
               (fun a => Bool.eqb (AttendanceORM.is_deleted a) false) ;;
  let filtered :=
    filter (fun a => startswith (datetime.strftime (AttendanceORM.date a))
                       day_month) records in
  ret (map Attendance_of filtered).

Definition get_deleted_attendance (day_month : string)
  : M (list Attendance.t) :=
  records <- query_all attendance
               (fun a => Bool.eqb (AttendanceORM.is_deleted a) true) ;;
  let filtered :=
    filter (fun a => startswith (datetime.strftime (AttendanceORM.date a))
                       day_month) records in
  ret (map Attendance_of filtered).

Definition delete_attendance (attendance_id : Z) : M dict :=
  key <- lift (bind_integer attendance_id) ;;
  record <- query_first attendance
              (fun a => AttendanceORM.id a =? key) ;;
  match record with
  | None => raise (HTTPException 404 "Record not found")
  | Some record =>
      assign_is_deleted_commit record true ;;;
      ret [("message", PyStr "Attendance marked as deleted");
           ("id", PyInt attendance_id)]
  end.

Definition restore_attendance (attendance_id : Z) : M dict :=
  key <- lift (bind_integer attendance_id) ;;
  record <- query_first attendance
              (fun a => AttendanceORM.id a =? key) ;;
  match record with
  | None => raise (HTTPException 404 "Record not found")
  | Some record =>
      assign_is_deleted_commit record false ;;;
      ret [("message", PyStr "Attendance restored");
           ("id", PyInt attendance_id)]
  end.

(* ------------------------------------------------------------------ *)
(** ** The contracts the handlers are compared with *)

(** *** The Validator contract, as the specification words it

    All three keys present: [student_id] integer-coercible, [date] a
    parseable calendar date, [status] a non-empty string. *)

Definition is_digit (c : ascii) : bool :=
  ((48 <=? nat_of_ascii c) && (nat_of_ascii c <=? 57))%nat.

Fixpoint all_digits (s : string) : bool :=
  match s with
  | EmptyString => true
  | String c s' => is_digit c && all_digits s'
  end.

(** Value of a string of decimal digits, most significant first. *)
Fixpoint number_from (acc : nat) (s : string) : nat :=
  match s with
  | EmptyString => acc
  | String c s' => number_from (10 * acc + (nat_of_ascii c - 48)) s'
  end.

Definition is_leap (y : nat) : bool :=
  ((y mod 4 =? 0) && (negb (y mod 100 =? 0) || (y mod 400 =? 0)))%nat.

Definition days_in_month (y m : nat) : nat :=
  match m with
  | 2 => if is_leap y then 29 else 28
  | 4 | 6 | 9 | 11 => 30
  | _ => 31
  end%nat.

(** A date written [YYYY-MM-DD] that exists in the calendar. *)
Definition parse_date (s : string) : option datetime.date :=
  let y := substring 0 4 s in
  let m := substring 5 2 s in
  let d := substring 8 2 s in
  if (String.length s =? 10)%nat
     && String.eqb (substring 4 1 s) "-" && String.eqb (substring 7 1 s) "-"
     && all_digits y && all_digits m && all_digits d
  then
    let yn := number_from 0 y in
    let mn := number_from 0 m in
    let dn := number_from 0 d in
    if ((1 <=? yn) && (1 <=? mn) && (mn <=? 12) && (1 <=? dn)
        && (dn <=? days_in_month yn mn))%nat
    then Some (datetime.mkdate yn mn dn)
    else None
  else None.

Definition integer_coercible (v : PyVal) : bool :=
  match v with
  | PyInt _ => true
  | PyStr s => negb (String.eqb s "") && all_digits s
  | _ => false
  end.

Definition parseable_date (v : PyVal) : bool :=
  match v with
  | PyDate _ => true
  | PyStr s => match parse_date s with Some _ => true | None => false end
  | _ => false
  end.

Definition non_empty_string (v : PyVal) : bool :=
  match v with
  | PyStr s => negb (String.eqb s "")
  | _ => false
  end.

Definition attendance_isValid_contract (data : dict) : bool :=
  match dict_get data "student_id", dict_get data "date",
        dict_get data "status" with
  | Some sid, Some d, Some st =>
      integer_coercible sid && parseable_date d && non_empty_string st
  | _, _, _ => false
  end.

(** *** The two selections behind the listings: the rows with the wanted
    flag whose date, as [strftime] renders it, starts with the prefix, in
    table order. *)

Definition listActiveByDatePrefix (prefix : string)
    (rows : list AttendanceORM.t) : list AttendanceORM.t :=
  filter (fun a => negb (AttendanceORM.is_deleted a)
                   && String.prefix prefix
                        (datetime.strftime (AttendanceORM.date a))) rows.

Definition listDeletedByDatePrefix (prefix : string)
    (rows : list AttendanceORM.t) : list AttendanceORM.t :=
  filter (fun a => AttendanceORM.is_deleted a
                   && String.prefix prefix
                        (datetime.strftime (AttendanceORM.date a))) rows.

(** *** Observations on a store *)

(** The attendance row the database holds under a key.  Keys are signed
    64-bit integers: no row is held under an integer outside that range. *)
Definition find_attendance (id : Z) (db : Store) : option AttendanceORM.t :=
  if sqlite_integer id
  then find (fun a => AttendanceORM.id a =? id) (attendance db)
  else None.

(** Is some student registered under [name]? *)
Definition has_student_named (name : string) (db : Store) : bool :=
  existsb (fun s => String.eqb (StudentORM.name s) name) (students db).

(** How many student rows carry [name]. *)
Definition count_students_named (name : string) (db : Store) : nat :=
  List.length
    (filter (fun s => String.eqb (StudentORM.name s) name) (students db)).

(** The envelope [add_student] answers with when the name is taken. *)
Definition duplicate_envelope (student : PostStudent.t) : ResponseModel.t :=
  ResponseModel.mk "POST" (PostStudent.dict student) "Student"
    ("Error occurred: "
     ++ str_exn (HTTPException 400 "Student already exists")).

(** No element of [l1] occurs in [l2]. *)
Definition disjointb (l1 l2 : list Attendance.t) : bool :=
  forallb (fun x => negb (existsb (Attendance.eqb x) l2)) l1.

(** *** Sample data *)

Definition alice : PostStudent.t := PostStudent.mk "Alice" "10A".

Definition empty_store : Store := mkStore [] [].

Definition store_alice : Store :=
  mkStore [StudentORM.mk 1 "Alice" "10A"] [].

Definition payload_present : dict :=
  [("student_id", PyInt 1); ("date", PyStr "2024-03-05");
   ("status", PyStr "Present")].

Definition payload_no_status : dict :=
  [("student_id", PyInt 1); ("date", PyStr "2024-03-05")].

Definition payload_unknown_student : dict :=
  [("student_id", PyInt 99); ("date", PyStr "2024-03-05");
   ("status", PyStr "Present")].

Definition march_rows : list AttendanceORM.t :=
  [AttendanceORM.mk 1 1 (datetime.mkdate 2024 3 1) "Present" false;
   AttendanceORM.mk 2 1 (datetime.mkdate 2024 3 15) "Absent" false;
   AttendanceORM.mk 3 1 (datetime.mkdate 2024 4 1) "Present" false].

Definition store_march : Store :=
  mkStore [StudentORM.mk 1 "Alice" "10A"] march_rows.

(* ------------------------------------------------------------------ *)
(** ** The routes as requests *)

(** One constructor per route of the application, with the parameters the
    route hands to its handler. *)
Inductive Request : Type :=
| POST_students (student : PostStudent.t)
| GET_students
| POST_attendance (new_attendance_data : dict)
| GET_attendance_all
| GET_attendance (day_month : string)
| GET_attendance_deleted (day_month : string)
| DELETE_attendance (attendance_id : Z)
| PUT_attendance_restore (attendance_id : Z).

(** The store a request leaves behind, whatever its answer. *)
Definition serve (r : Request) (db : Store) : Store :=
  match r with
  | POST_students student => snd (add_student student db)
  | GET_students => snd (get_students db)
  | POST_attendance d => snd (add_attendance d db)
  | GET_attendance_all => snd (get_all_attendance db)
  | GET_attendance p => snd (get_active_attendance p db)
  | GET_attendance_deleted p => snd (get_deleted_attendance p db)
  | DELETE_attendance i => snd (delete_attendance i db)
  | PUT_attendance_restore i => snd (restore_attendance i db)
  end.

(** A sequence of requests, served one after the other. *)
Definition serve_all (rs : list Request) (db : Store) : Store :=
  fold_left (fun db r => serve r db) rs db.

(** Everything in an attendance row but its flag. *)
Definition row_data (a : AttendanceORM.t)
  : Z * Z * datetime.date * string :=
  (AttendanceORM.id a, AttendanceORM.student_id a, AttendanceORM.date a,
   AttendanceORM.status a).

(** The ranges a [datetime.date] keeps its fields in: years 1 to 9999,
    months 1 to 12, days 1 to 31. *)
Definition MAXYEAR : nat := 9999.

Definition date_in_range (d : datetime.date) : bool :=
  ((1 <=? datetime.year d) && (datetime.year d <=? MAXYEAR)
   && (1 <=? datetime.month d) && (datetime.month d <=? 12)
   && (1 <=? datetime.day d) && (datetime.day d <=? 31))%nat.

(** *** The calendar rendering the specification names

    [YYYY-MM-DD]: four digits of year, two of month, two of day, each
    written out digit by digit. *)




(** A row dated before the year 1000. *)
Definition row_year_999 : AttendanceORM.t :=
  AttendanceORM.mk 1 1 (datetime.mkdate 999 3 5) "Present" false.

Definition store_year_999 : Store :=
  mkStore [StudentORM.mk 1 "Alice" "10A"] [row_year_999].

(** Evaluates the value of a literal digit character in the goal. *)
Ltac digit_value :=
  match goal with
  | |- context [ (nat_of_ascii ?c - 48)%nat ] =>
      let v := eval vm_compute in (nat_of_ascii c - 48)%nat in
      change (nat_of_ascii c - 48)%nat with v
  end.

(* ================================================================== *)
(** * Properties *)

(* ------------------------------------------------------------------ *)
(** ** The validator and [add_attendance] *)

(** The module binds no name [x]. *)
Lemma module_globals_no_x : dict_get module_globals "x" = None.
Proof. reflexivity. Qed.

(** Whatever the scope, the verdict does not depend on the payload. *)
Lemma attendance_isValid_in_ignores_data (globals data data' : dict) :
  attendance_isValid_in globals data = attendance_isValid_in globals data'.
Proof. reflexivity. Qed.

(** A [dict] has no attribute called [dict] or [student_id]. *)
Lemma dict_call_dict (d : dict) :
  dict_call d "dict" = Raise (AttributeError "dict" "dict").
Proof. reflexivity. Qed.

Lemma dict_getattr_student_id (d : dict) :
  dict_getattr d "student_id" = Raise (AttributeError "dict" "student_id").
Proof. reflexivity. Qed.

(** Every exception of the [try] block reaches the handler, whose first
    step, [new_attendance_data.dict()], raises in turn: the request ends
    with that [AttributeError] and the store as it was. *)
Lemma add_attendance_handler_raises (body : M ResponseModel.t) (d : dict)
    (db : Store) (e : Exn) :
  body db = (Raise e, db) ->
  try_except body
    (fun e =>
       param <- lift (dict_call d "dict") ;;
       ret (ResponseModel.mk "POST" param "Attendance"
              ("Error occurred: " ++ str_exn e))) db
  = (Raise (AttributeError "dict" "dict"), db).
Proof.
  intros Hbody. unfold try_except. rewrite Hbody.
  unfold bind, lift. rewrite dict_call_dict. reflexivity.
Qed.

Lemma add_attendance_always_raises (d : dict) (db : Store) :
  add_attendance d db = (Raise (AttributeError "dict" "dict"), db).
Proof.
  unfold add_attendance.
  apply add_attendance_handler_raises with (e := NameError "x").
  reflexivity.
Qed.

(** Even in a scope that binds [x] to the empty string, where the validator
    answers [True] for every payload, the request fails the same way: the
    [try] block stops at [new_attendance_data.student_id]. *)
Lemma add_attendance_body_with_x (d : dict) (db : Store) :
  attendance_isValid_in (("x", PyStr "") :: module_globals) d = Return true
  /\ (sid <- lift (dict_getattr d "student_id") ;;
      sid <- lift (bind_value sid) ;;
      query_first students (fun s => py_eq_int sid (StudentORM.id s))) db
     = (Raise (AttributeError "dict" "student_id"), db).
Proof. split; reflexivity. Qed.

(** C1 (the code departs from the contract). A payload with all three
    required fields of the right types satisfies the Validator contract,
    yet [attendance_isValid] does not answer [True] on it: it raises
    [NameError] for the unbound name [x]. *)
Theorem attendance_isValid_rejects_well_formed :
  attendance_isValid_contract payload_present = true
  /\ attendance_isValid payload_present = Raise (NameError "x").
Proof. split; reflexivity. Qed.

(** C2 (the code departs from the claim). [attendance_isValid] never
    returns: on every mapping it raises [NameError] for the name [x]. *)
Theorem attendance_isValid_always_raises (data : dict) :
  attendance_isValid data = Raise (NameError "x").
Proof.
  unfold attendance_isValid, attendance_isValid_in, load_global.
  rewrite module_globals_no_x. reflexivity.
Qed.

(** C3 (the code departs from the claim). With student 1 registered and a
    payload the contract accepts, [add_attendance] raises [AttributeError]
    and the attendance table gains no row. *)
Theorem add_attendance_valid_payload_creates_nothing :
  attendance_isValid_contract payload_present = true
  /\ option_map StudentORM.name
       (find (fun s => StudentORM.id s =? 1) (students store_alice))
     = Some "Alice"
  /\ add_attendance payload_present store_alice
     = (Raise (AttributeError "dict" "dict"), store_alice)
  /\ attendance (snd (add_attendance payload_present store_alice)) = [].
Proof. repeat split; reflexivity. Qed.

(** C4 (the code departs from the claim). For a payload without [status],
    which the contract rejects, [add_attendance] leaves every store as it
    was, but the failure is an [AttributeError] raised by the exception
    handler, not the invalid-input [HTTPException]. *)
Theorem add_attendance_missing_status (db : Store) :
  attendance_isValid_contract payload_no_status = false
  /\ add_attendance payload_no_status db
     = (Raise (AttributeError "dict" "dict"), db).
Proof.
  rewrite add_attendance_always_raises. split; reflexivity.
Qed.

(** C5 (the code departs from the claim). For a well-formed payload naming
    student 99 and a store with no such student, [add_attendance] leaves the
    store as it was, but the failure is an [AttributeError], not the
    student-not-found [HTTPException]. *)
Theorem add_attendance_unknown_student :
  attendance_isValid_contract payload_unknown_student = true
  /\ find (fun s => StudentORM.id s =? 99) (students store_alice) = None
  /\ add_attendance payload_unknown_student store_alice
     = (Raise (AttributeError "dict" "dict"), store_alice).
Proof.
  rewrite add_attendance_always_raises. repeat split; reflexivity.
Qed.

(* ------------------------------------------------------------------ *)
(** ** [add_student] *)

(** A row stored by key is one more row of the table. *)
Lemma insert_by_key_Permutation {R} (key : R -> Z) (row : R)
    (rows : list R) :
  Permutation (insert_by_key key row rows) (row :: rows).
Proof.
  induction rows as [|r rows IH]; [apply Permutation_refl|].
  cbn [insert_by_key]. destruct (key row <? key r).
  - apply Permutation_refl.
  - eapply Permutation_trans; [apply perm_skip, IH | apply perm_swap].
Qed.

Lemma existsb_insert_by_key {R} (key : R -> Z) (p : R -> bool) (row : R)
    (rows : list R) :
  existsb p (insert_by_key key row rows) = p row || existsb p rows.
Proof.
  induction rows as [|r rows IH]; [reflexivity|].
  cbn [insert_by_key]. destruct (key row <? key r); [reflexivity|].
  cbn [existsb]. rewrite IH.
  destruct (p r), (p row); reflexivity.
Qed.

Lemma count_insert_by_key {R} (key : R -> Z) (p : R -> bool) (row : R)
    (rows : list R) :
  List.length (filter p (insert_by_key key row rows))
  = List.length (filter p (row :: rows)).
Proof.
  induction rows as [|r rows IH]; [reflexivity|].
  cbn [insert_by_key]. destruct (key row <? key r); [reflexivity|].
  cbn [filter] in *. destruct (p r), (p row); cbn [List.length] in *;
    rewrite IH; reflexivity.
Qed.

(** Under a key above every key in use the row comes last. *)
Lemma insert_by_key_last {R} (key : R -> Z) (row : R) (rows : list R) :
  Forall (fun r => key r < key row) rows ->
  insert_by_key key row rows = (rows ++ [row])%list.
Proof.
  induction 1 as [|r rows Hr _ IH]; [reflexivity|].
  cbn [insert_by_key app].
  destruct (Z.ltb_spec (key row) (key r)); [lia|]. rewrite IH. reflexivity.
Qed.

Section AddStudent.

Variable db : Store.
Variable student : PostStudent.t.

Lemma find_existsb {R} (p : R -> bool) (l : list R) :
  existsb p l = match find p l with Some _ => true | None => false end.
Proof.
  induction l as [|r l IH]; simpl; [reflexivity|].
  destruct (p r); simpl; [reflexivity | exact IH].
Qed.

(** A taken name: the error envelope, and the store as it was. *)
Lemma add_student_taken :
  has_student_named (PostStudent.name student) db = true ->
  add_student student db = (Return (duplicate_envelope student), db).
Proof.
  unfold has_student_named. rewrite find_existsb.
  unfold add_student, try_except, bind, query_first.
  destruct (find _ (students db)); [reflexivity | discriminate].
Qed.

(** A free name: one row stored under the next key. *)
Lemma add_student_free :
  has_student_named (PostStudent.name student) db = false ->
  add_student student db
  = (Return (ResponseModel.mk "POST" (PostStudent.dict student) "Student"
               "Successfully Added Student."),
     mkStore
       (insert_by_key StudentORM.id
          (StudentORM.mk (next_id (map StudentORM.id (students db)))
             (PostStudent.name student) (PostStudent.class_name student))
          (students db))
       (attendance db)).
Proof.
  unfold has_student_named. rewrite find_existsb.
  unfold add_student, try_except, bind, query_first.
  destruct (find _ (students db)); [discriminate | reflexivity].
Qed.

Lemma count_zero_of_absent :
  has_student_named (PostStudent.name student) db = false ->
  count_students_named (PostStudent.name student) db = 0%nat.
Proof.
  unfold has_student_named, count_students_named.
  induction (students db) as [|s l IH]; simpl; [reflexivity|].
  destruct (String.eqb (StudentORM.name s) (PostStudent.name student));
    simpl; [discriminate | exact IH].
Qed.

End AddStudent.

(** C6. When the store already holds a student of that name, [add_student]
    answers with the duplicate-student error envelope and leaves the store
    unchanged.  Hence, from a store where the name is free, adding it twice
    (whatever the class names) leaves exactly one row of that name, the
    second call answering with the error envelope. *)
Theorem add_student_duplicate (db : Store) (student : PostStudent.t) :
  (has_student_named (PostStudent.name student) db = true ->
   add_student student db = (Return (duplicate_envelope student), db))
  /\
  (has_student_named (PostStudent.name student) db = false ->
   forall again : PostStudent.t,
     PostStudent.name again = PostStudent.name student ->
     let db1 := snd (add_student student db) in
     count_students_named (PostStudent.name student) db1 = 1%nat
     /\ add_student again db1 = (Return (duplicate_envelope again), db1)).
Proof.
  split; [apply add_student_taken|].
  intros Hfree again Hname db1. subst db1.
  rewrite (add_student_free db student Hfree). cbn [snd].
  assert (Hhas : has_student_named (PostStudent.name student)
                   (mkStore
                      (insert_by_key StudentORM.id
                         (StudentORM.mk
                            (next_id (map StudentORM.id (students db)))
                            (PostStudent.name student)
                            (PostStudent.class_name student))
                         (students db))
                      (attendance db)) = true).
  { unfold has_student_named. cbn [students].
    rewrite existsb_insert_by_key. cbn [StudentORM.name].
    rewrite String.eqb_refl. reflexivity. }
  split.
  - unfold count_students_named. cbn [students].
    rewrite count_insert_by_key. cbn [filter StudentORM.name].
    rewrite String.eqb_refl. cbn [List.length].
    pose proof (count_zero_of_absent db student Hfree) as Hzero.
    unfold count_students_named in Hzero. rewrite Hzero. reflexivity.
  - apply add_student_taken. rewrite Hname. exact Hhas.
Qed.

Lemma add_student_duplicate_witness :
  (has_student_named "Alice" store_alice = true
   /\ add_student alice store_alice
      = (Return (duplicate_envelope alice), store_alice))
  /\
  (has_student_named "Alice" empty_store = false
   /\ count_students_named "Alice" (snd (add_student alice empty_store))
      = 1%nat
   /\ add_student (PostStudent.mk "Alice" "11B")
        (snd (add_student alice empty_store))
      = (Return (duplicate_envelope (PostStudent.mk "Alice" "11B")),
         snd (add_student alice empty_store))).
Proof.
  split.
  - split; [reflexivity|].
    apply (proj1 (add_student_duplicate store_alice alice)). reflexivity.
  - split; [reflexivity|].
    apply (proj2 (add_student_duplicate empty_store alice));
      reflexivity.
Defined.

(* ------------------------------------------------------------------ *)
(** ** The listings by date prefix *)

Lemma filter_filter_andb {R} (p q : R -> bool) (l : list R) :
  filter q (filter p l) = filter (fun r => p r && q r) l.
Proof.
  induction l as [|r l IH]; simpl; [reflexivity|].
  destruct (p r); simpl; [destruct (q r)|]; rewrite IH; reflexivity.
Qed.

(** The query filter followed by the comprehension test is the conjunction
    the contract states. *)
Lemma active_test_eq (prefix : string) (a : AttendanceORM.t) :
  Bool.eqb (AttendanceORM.is_deleted a) false
  && startswith (datetime.strftime (AttendanceORM.date a)) prefix
  = negb (AttendanceORM.is_deleted a)
    && String.prefix prefix (datetime.strftime (AttendanceORM.date a)).
Proof. destruct (AttendanceORM.is_deleted a); reflexivity. Qed.

Lemma deleted_test_eq (prefix : string) (a : AttendanceORM.t) :
  Bool.eqb (AttendanceORM.is_deleted a) true
  && startswith (datetime.strftime (AttendanceORM.date a)) prefix
  = AttendanceORM.is_deleted a
    && String.prefix prefix (datetime.strftime (AttendanceORM.date a)).
Proof. destruct (AttendanceORM.is_deleted a); reflexivity. Qed.

Lemma get_active_attendance_eq (prefix : string) (db : Store) :
  get_active_attendance prefix db
  = (Return (map Attendance_of
               (listActiveByDatePrefix prefix (attendance db))), db).
Proof.
  unfold get_active_attendance, bind, query_all, ret, listActiveByDatePrefix.
  rewrite filter_filter_andb.
  rewrite (filter_ext _ _ (active_test_eq prefix)). reflexivity.
Qed.

Lemma get_deleted_attendance_eq (prefix : string) (db : Store) :
  get_deleted_attendance prefix db
  = (Return (map Attendance_of
               (listDeletedByDatePrefix prefix (attendance db))), db).
Proof.
  unfold get_deleted_attendance, bind, query_all, ret,
    listDeletedByDatePrefix.
  rewrite filter_filter_andb.
  rewrite (filter_ext _ _ (deleted_test_eq prefix)). reflexivity.
Qed.

(** The three dated rows of the specification: the month prefix keeps the
    two March rows, the full date keeps one. *)
Example march_prefixes :
  map AttendanceORM.id (listActiveByDatePrefix "2024-03" march_rows)
  = [1; 2]
  /\ map AttendanceORM.id (listActiveByDatePrefix "2024-03-15" march_rows)
     = [2]
  /\ fst (get_active_attendance "2024-03-15" store_march)
     = Return [Attendance.mk 1 (datetime.mkdate 2024 3 15) "Absent" false].
Proof. repeat split; reflexivity. Qed.

(* ------------------------------------------------------------------ *)
(** ** Disjointness of the two listings *)

Lemma Attendance_eqb_flag (x y : Attendance.t) :
  Attendance.eqb x y = true ->
  Attendance.is_deleted x = Attendance.is_deleted y.
Proof.
  unfold Attendance.eqb. intros H.
  apply andb_true_iff in H. destruct H as [_ H].
  apply Bool.eqb_prop. exact H.
Qed.

Lemma Attendance_eqb_refl (x : Attendance.t) : Attendance.eqb x x = true.
Proof.
  unfold Attendance.eqb, datetime.eqb.
  rewrite Z.eqb_refl, !Nat.eqb_refl, String.eqb_refl, Bool.eqb_reflx.
  reflexivity.
Qed.

(** What [disjointb] decides. *)
Lemma disjointb_sound (l1 l2 : list Attendance.t) :
  disjointb l1 l2 = true -> forall x, In x l1 -> ~ In x l2.
Proof.
  unfold disjointb. intros H x H1 H2.
  rewrite forallb_forall in H. specialize (H x H1).
  apply negb_true_iff in H.
  assert (Hex : existsb (Attendance.eqb x) l2 = true).
  { apply existsb_exists. exists x. split; [exact H2|].
    apply Attendance_eqb_refl. }
  congruence.
Qed.

(** Lists that disagree on the flag share no element. *)
Lemma disjointb_by_flag (l1 l2 : list Attendance.t) :
  forallb (fun x => negb (Attendance.is_deleted x)) l1 = true ->
  forallb Attendance.is_deleted l2 = true ->
  disjointb l1 l2 = true.
Proof.
  intros H1 H2. unfold disjointb.
  apply forallb_forall. intros x Hx.
  rewrite forallb_forall in H1. specialize (H1 x Hx).
  apply negb_true_iff in H1.
  apply negb_true_iff.
  destruct (existsb (Attendance.eqb x) l2) eqn:Hex; [|reflexivity].
  apply existsb_exists in Hex. destruct Hex as [y [Hy Heq]].
  rewrite forallb_forall in H2. specialize (H2 y Hy).
  apply Attendance_eqb_flag in Heq. congruence.
Qed.

Lemma forallb_map_filter {R T} (f : R -> T) (q : T -> bool)
    (p : R -> bool) (l : list R) :
  (forall r, p r = true -> q (f r) = true) ->
  forallb q (map f (filter p l)) = true.
Proof.
  intros Hpq. induction l as [|r l IH]; simpl; [reflexivity|].
  destruct (p r) eqn:Hp; simpl; [|exact IH].
  rewrite (Hpq r Hp), IH. reflexivity.
Qed.

(** C10. For every store and prefix the two listings share no element, and
    no row of the table is selected by both filters. *)
Theorem active_and_deleted_disjoint (prefix : string) (db : Store) :
  exists active deleted : list Attendance.t,
    get_active_attendance prefix db = (Return active, db)
    /\ get_deleted_attendance prefix db = (Return deleted, db)
    /\ disjointb active deleted = true
    /\ listActiveByDatePrefix prefix
         (listDeletedByDatePrefix prefix (attendance db)) = [].
Proof.
  eexists. eexists.
  split; [apply get_active_attendance_eq|].
  split; [apply get_deleted_attendance_eq|].
  split.
  - apply disjointb_by_flag; unfold listActiveByDatePrefix,
      listDeletedByDatePrefix; apply forallb_map_filter; intros r Hr;
      apply andb_true_iff in Hr; destruct Hr as [Hr _]; exact Hr.
  - unfold listActiveByDatePrefix, listDeletedByDatePrefix.
    rewrite filter_filter_andb.
    induction (attendance db) as [|a l IH]; simpl; [reflexivity|].
    destruct (AttendanceORM.is_deleted a); simpl;
      rewrite ?andb_false_r; exact IH.
Qed.

(* ------------------------------------------------------------------ *)
(** ** Soft delete and restore *)

Section FlagUpdate.

Variable db : Store.
Variable record : AttendanceORM.t.
Variable b : bool.

Lemma set_is_deleted_id (a : AttendanceORM.t) :
  AttendanceORM.id (AttendanceORM.set_is_deleted b a) = AttendanceORM.id a.
Proof. reflexivity. Qed.

(** The row found under a key carries that key. *)
Lemma find_attendance_id (i : Z) :
  find_attendance i db = Some record -> AttendanceORM.id record = i.
Proof.
  unfold find_attendance. intros H.
  destruct (sqlite_integer i); [|discriminate].
  apply find_some in H. destruct H as [_ H].
  apply Z.eqb_eq. exact H.
Qed.

(** After the flush, the row under the key of [record] is the old one with
    the new flag. *)
Lemma assign_find_same :
  find_attendance (AttendanceORM.id record)
    (snd (assign_is_deleted_commit record b db))
  = option_map (AttendanceORM.set_is_deleted b)
      (find_attendance (AttendanceORM.id record) db).
Proof.
  unfold find_attendance.
  destruct (sqlite_integer (AttendanceORM.id record)); [|reflexivity].
  unfold assign_is_deleted_commit. cbn [snd attendance].
  induction (attendance db) as [|a l IH]; [reflexivity|].
  cbn [map find].
  destruct (AttendanceORM.id a =? AttendanceORM.id record) eqn:Ha.
  - rewrite set_is_deleted_id, Ha. reflexivity.
  - rewrite Ha. exact IH.
Qed.

(** Rows under other keys are not touched. *)
Lemma assign_find_other (j : Z) :
  j <> AttendanceORM.id record ->
  find_attendance j (snd (assign_is_deleted_commit record b db))
  = find_attendance j db.
Proof.
  intros Hj.
  unfold find_attendance. destruct (sqlite_integer j); [|reflexivity].
  unfold assign_is_deleted_commit. cbn [snd attendance].
  induction (attendance db) as [|a l IH]; [reflexivity|].
  cbn [map find].
  destruct (AttendanceORM.id a =? AttendanceORM.id record) eqn:Ha.
  - rewrite set_is_deleted_id.
    apply Z.eqb_eq in Ha.
    destruct (AttendanceORM.id a =? j) eqn:Haj;
      [apply Z.eqb_eq in Haj; congruence | exact IH].
  - destruct (AttendanceORM.id a =? j); [reflexivity | exact IH].
Qed.

(** Flushing the same assignment again changes nothing. *)
Lemma assign_twice (record' : AttendanceORM.t) :
  AttendanceORM.id record' = AttendanceORM.id record ->
  snd (assign_is_deleted_commit record' b
         (snd (assign_is_deleted_commit record b db)))
  = snd (assign_is_deleted_commit record b db).
Proof.
  intros Hid. unfold assign_is_deleted_commit.
  cbn [snd attendance students]. f_equal. rewrite Hid.
  rewrite map_map. apply map_ext. intros a.
  destruct (AttendanceORM.id a =? AttendanceORM.id record) eqn:Ha.
  - rewrite set_is_deleted_id, Ha. reflexivity.
  - rewrite Ha. reflexivity.
Qed.

End FlagUpdate.

Lemma delete_attendance_found (db : Store) (i : Z) (r : AttendanceORM.t) :
  find_attendance i db = Some r ->
  delete_attendance i db
  = (Return [("message", PyStr "Attendance marked as deleted");
             ("id", PyInt i)],
     snd (assign_is_deleted_commit r true db)).
Proof.
  unfold find_attendance, delete_attendance, bind, lift, bind_integer,
    query_first.
  intros H. destruct (sqlite_integer i); [|discriminate].
  rewrite H. reflexivity.
Qed.

Lemma restore_attendance_found (db : Store) (i : Z) (r : AttendanceORM.t) :
  find_attendance i db = Some r ->
  restore_attendance i db
  = (Return [("message", PyStr "Attendance restored"); ("id", PyInt i)],
     snd (assign_is_deleted_commit r false db)).
Proof.
  unfold find_attendance, restore_attendance, bind, lift, bind_integer,
    query_first.
  intros H. destruct (sqlite_integer i); [|discriminate].
  rewrite H. reflexivity.
Qed.

(** An absent key that fits the database's integers is reported, and the
    store is left alone. *)
Lemma delete_attendance_absent (db : Store) (i : Z) :
  sqlite_integer i = true ->
  find_attendance i db = None ->
  delete_attendance i db = (Raise (HTTPException 404 "Record not found"), db).
Proof.
  unfold find_attendance, delete_attendance, bind, lift, bind_integer,
    query_first.
  intros Hi H. rewrite Hi in *. rewrite H. reflexivity.
Qed.

Lemma restore_attendance_absent (db : Store) (i : Z) :
  sqlite_integer i = true ->
  find_attendance i db = None ->
  restore_attendance i db
  = (Raise (HTTPException 404 "Record not found"), db).
Proof.
  unfold find_attendance, restore_attendance, bind, lift, bind_integer,
    query_first.
  intros Hi H. rewrite Hi in *. rewrite H. reflexivity.
Qed.

(** An id that does not fit makes the driver raise before any lookup. *)
Lemma delete_attendance_overflow (db : Store) (i : Z) :
  sqlite_integer i = false ->
  delete_attendance i db
  = (Raise (OverflowError
              "Python int too large to convert to SQLite INTEGER"), db).
Proof.
  unfold delete_attendance, bind, lift, bind_integer. intros Hi.
  rewrite Hi. reflexivity.
Qed.

Lemma restore_attendance_overflow (db : Store) (i : Z) :
  sqlite_integer i = false ->
  restore_attendance i db
  = (Raise (OverflowError
              "Python int too large to convert to SQLite INTEGER"), db).
Proof.
  unfold restore_attendance, bind, lift, bind_integer. intros Hi.
  rewrite Hi. reflexivity.
Qed.

(** Either way a request for a key under which no row is held changes
    nothing. *)
Lemma flag_request_not_found (db : Store) (i : Z) :
  find_attendance i db = None ->
  snd (delete_attendance i db) = db /\ snd (restore_attendance i db) = db.
Proof.
  intros H. destruct (sqlite_integer i) eqn:Hi.
  - rewrite (delete_attendance_absent db i Hi H),
      (restore_attendance_absent db i Hi H). split; reflexivity.
  - rewrite (delete_attendance_overflow db i Hi),
      (restore_attendance_overflow db i Hi). split; reflexivity.
Qed.

(** One call of either handler on a present key: the answer, and the row
    afterwards. *)
Lemma flag_call_once (db : Store) (i : Z) (r : AttendanceORM.t) (b : bool) :
  find_attendance i db = Some r ->
  find_attendance i (snd (assign_is_deleted_commit r b db))
  = Some (AttendanceORM.set_is_deleted b r).
Proof.
  intros H. pose proof (find_attendance_id db r i H) as Hid. subst i.
  rewrite assign_find_same, H. reflexivity.
Qed.

(** C8. For an attendance id present in the store, [delete_attendance]
    succeeds, leaves the row flagged deleted, and a second call succeeds
    again without changing the store any further; [restore_attendance]
    behaves the same way with the flag cleared. *)
Theorem soft_delete_restore_idempotent (db : Store) (i : Z)
    (r : AttendanceORM.t) (Hfound : find_attendance i db = Some r) :
  let deleted := snd (delete_attendance i db) in
  let restored := snd (restore_attendance i db) in
  (fst (delete_attendance i db)
   = Return [("message", PyStr "Attendance marked as deleted");
             ("id", PyInt i)]
   /\ option_map AttendanceORM.is_deleted (find_attendance i deleted)
      = Some true
   /\ delete_attendance i deleted
      = (Return [("message", PyStr "Attendance marked as deleted");
                 ("id", PyInt i)], deleted))
  /\
  (fst (restore_attendance i db)
   = Return [("message", PyStr "Attendance restored"); ("id", PyInt i)]
   /\ option_map AttendanceORM.is_deleted (find_attendance i restored)
      = Some false
   /\ restore_attendance i restored
      = (Return [("message", PyStr "Attendance restored"); ("id", PyInt i)],
         restored)).
Proof.
  intros deleted restored. subst deleted restored.
  pose proof (find_attendance_id db r i Hfound) as Hid.
  rewrite (delete_attendance_found db i r Hfound).
  rewrite (restore_attendance_found db i r Hfound).
  cbn [fst snd].
  pose proof (flag_call_once db i r true Hfound) as Hdel.
  pose proof (flag_call_once db i r false Hfound) as Hres.
  split; (split; [reflexivity|]); split.
  - rewrite Hdel. reflexivity.
  - rewrite (delete_attendance_found _ i _ Hdel). f_equal.
    apply assign_twice. reflexivity.
  - rewrite Hres. reflexivity.
  - rewrite (restore_attendance_found _ i _ Hres). f_equal.
    apply assign_twice. reflexivity.
Qed.

Lemma soft_delete_restore_idempotent_witness :
  find_attendance 2 store_march
  = Some (AttendanceORM.mk 2 1 (datetime.mkdate 2024 3 15) "Absent" false)
  /\ option_map AttendanceORM.is_deleted
       (find_attendance 2 (snd (delete_attendance 2 store_march)))
     = Some true
  /\ delete_attendance 2 (snd (delete_attendance 2 store_march))
     = (Return [("message", PyStr "Attendance marked as deleted");
                ("id", PyInt 2)], snd (delete_attendance 2 store_march)).
Proof.
  split; [reflexivity|].
  exact (proj2 (proj1
           (soft_delete_restore_idempotent store_march 2
              (AttendanceORM.mk 2 1 (datetime.mkdate 2024 3 15) "Absent"
                 false)
              eq_refl))).
Defined.

(** C9. For a present row that is not deleted, [delete_attendance] followed
    by [restore_attendance] on its id both succeed and give back the very
    same row (id, student_id, date, status as they were, the flag false
    again); the rows under other ids and the students are untouched. *)
Theorem soft_delete_then_restore (db : Store) (i : Z) (r : AttendanceORM.t)
    (Hfound : find_attendance i db = Some r)
    (Hactive : AttendanceORM.is_deleted r = false) :
  let deleted := snd (delete_attendance i db) in
  let restored := snd (restore_attendance i deleted) in
  fst (delete_attendance i db)
  = Return [("message", PyStr "Attendance marked as deleted");
            ("id", PyInt i)]
  /\ fst (restore_attendance i deleted)
     = Return [("message", PyStr "Attendance restored"); ("id", PyInt i)]
  /\ find_attendance i restored = Some r
  /\ (forall j : Z, j <> i ->
      find_attendance j restored = find_attendance j db)
  /\ students restored = students db.
Proof.
  intros deleted restored. subst deleted restored.
  pose proof (find_attendance_id db r i Hfound) as Hid.
  rewrite (delete_attendance_found db i r Hfound). cbn [fst snd].
  pose proof (flag_call_once db i r true Hfound) as Hdel.
  rewrite (restore_attendance_found _ i _ Hdel). cbn [fst snd].
  split; [reflexivity|]. split; [reflexivity|]. split; [|split].
  - rewrite (flag_call_once _ i _ false Hdel).
    destruct r as [rid sid d st fl]. cbn in Hactive. subst fl.
    reflexivity.
  - intros j Hj.
    rewrite assign_find_other by (cbn; lia).
    apply assign_find_other. lia.
  - reflexivity.
Qed.

Lemma soft_delete_then_restore_witness :
  (find_attendance 2 store_march
   = Some (AttendanceORM.mk 2 1 (datetime.mkdate 2024 3 15) "Absent" false)
   /\ AttendanceORM.is_deleted
        (AttendanceORM.mk 2 1 (datetime.mkdate 2024 3 15) "Absent" false)
      = false)
  /\ find_attendance 2
       (snd (restore_attendance 2 (snd (delete_attendance 2 store_march))))
     = Some (AttendanceORM.mk 2 1 (datetime.mkdate 2024 3 15) "Absent" false).
Proof.
  split; [split; reflexivity|].
  exact (proj1 (proj2 (proj2
           (soft_delete_then_restore store_march 2
              (AttendanceORM.mk 2 1 (datetime.mkdate 2024 3 15) "Absent"
                 false)
              eq_refl eq_refl)))).
Defined.

(* ------------------------------------------------------------------ *)
(** ** Soft delete and restore: absent ids, listings, composition *)

(** X1. For an id that fits a signed 64-bit integer and that no
    attendance row carries, [delete_attendance] and [restore_attendance]
    both raise the 404 "Record not found" exception; for an id that does
    not fit, both raise [OverflowError] before any lookup.  The store is
    left as it was in every case. *)
Theorem delete_restore_absent_id (db : Store) (i : Z) :
  (sqlite_integer i = true -> find_attendance i db = None ->
   delete_attendance i db
   = (Raise (HTTPException 404 "Record not found"), db)
   /\ restore_attendance i db
      = (Raise (HTTPException 404 "Record not found"), db))
  /\
  (sqlite_integer i = false ->
   delete_attendance i db
   = (Raise (OverflowError
               "Python int too large to convert to SQLite INTEGER"), db)
   /\ restore_attendance i db
      = (Raise (OverflowError
                  "Python int too large to convert to SQLite INTEGER"), db)).
Proof.
  split.
  - intros Hi Habsent.
    split; [apply delete_attendance_absent | apply restore_attendance_absent];
      assumption.
  - intros Hi.
    split; [apply delete_attendance_overflow
           | apply restore_attendance_overflow]; exact Hi.
Qed.

Lemma delete_restore_absent_id_witness :
  ((sqlite_integer 7 = true /\ find_attendance 7 store_march = None)
   /\ delete_attendance 7 store_march
      = (Raise (HTTPException 404 "Record not found"), store_march)
   /\ restore_attendance 7 store_march
      = (Raise (HTTPException 404 "Record not found"), store_march))
  /\
  (sqlite_integer (2 ^ 63) = false
   /\ delete_attendance (2 ^ 63) store_march
      = (Raise (OverflowError
                  "Python int too large to convert to SQLite INTEGER"),
         store_march)
   /\ restore_attendance (2 ^ 63) store_march
      = (Raise (OverflowError
                  "Python int too large to convert to SQLite INTEGER"),
         store_march)).
Proof.
  split.
  - split; [split; reflexivity|].
    exact (proj1 (delete_restore_absent_id store_march 7) eq_refl eq_refl).
  - split; [reflexivity|].
    exact (proj2 (delete_restore_absent_id store_march (2 ^ 63)) eq_refl).
Defined.

Section FlagAndListings.

Variable prefix : string.
Variable i : Z.

(** Flagging the rows under key [i] as deleted takes exactly them out of
    the active selection. *)
Lemma listActive_after_flag (rows : list AttendanceORM.t) :
  listActiveByDatePrefix prefix
    (map (fun a => if AttendanceORM.id a =? i
                   then AttendanceORM.set_is_deleted true a else a) rows)
  = filter (fun a => negb (AttendanceORM.id a =? i))
      (listActiveByDatePrefix prefix rows).
Proof.
  unfold listActiveByDatePrefix.
  induction rows as [|a l IH]; [reflexivity|].
  cbn [map filter].
  destruct (AttendanceORM.id a =? i) eqn:Ha.
  - cbn [AttendanceORM.set_is_deleted AttendanceORM.is_deleted negb andb].
    rewrite IH.
    destruct (negb (AttendanceORM.is_deleted a)
              && String.prefix prefix
                   (datetime.strftime (AttendanceORM.date a)));
      [cbn [filter]; rewrite Ha|]; reflexivity.
  - rewrite IH.
    destruct (negb (AttendanceORM.is_deleted a)
              && String.prefix prefix
                   (datetime.strftime (AttendanceORM.date a)));
      [cbn [filter]; rewrite Ha|]; reflexivity.
Qed.

(** Clearing the flag takes them out of the deleted selection. *)
Lemma listDeleted_after_unflag (rows : list AttendanceORM.t) :
  listDeletedByDatePrefix prefix
    (map (fun a => if AttendanceORM.id a =? i
                   then AttendanceORM.set_is_deleted false a else a) rows)
  = filter (fun a => negb (AttendanceORM.id a =? i))
      (listDeletedByDatePrefix prefix rows).
Proof.
  unfold listDeletedByDatePrefix.
  induction rows as [|a l IH]; [reflexivity|].
  cbn [map filter].
  destruct (AttendanceORM.id a =? i) eqn:Ha.
  - cbn [AttendanceORM.set_is_deleted AttendanceORM.is_deleted negb andb].
    rewrite IH.
    destruct (AttendanceORM.is_deleted a
              && String.prefix prefix
                   (datetime.strftime (AttendanceORM.date a)));
      [cbn [filter]; rewrite Ha|]; reflexivity.
  - rewrite IH.
    destruct (AttendanceORM.is_deleted a
              && String.prefix prefix
                   (datetime.strftime (AttendanceORM.date a)));
      [cbn [filter]; rewrite Ha|]; reflexivity.
Qed.

End FlagAndListings.

(** The row found under a key is a row of the table. *)
Lemma find_attendance_In (db : Store) (i : Z) (r : AttendanceORM.t) :
  find_attendance i db = Some r -> In r (attendance db).
Proof.
  unfold find_attendance. intros H.
  destruct (sqlite_integer i); [|discriminate].
  apply find_some in H. apply H.
Qed.

(** X2. After [delete_attendance] has succeeded on id [i], the active
    listing for any prefix is the former one without the rows of id [i],
    and, when the date of the row matches the prefix, the deleted listing
    contains that row with its flag set. *)
Theorem delete_moves_row_to_deleted_listing (prefix : string) (db : Store)
    (i : Z) (r : AttendanceORM.t)
    (Hfound : find_attendance i db = Some r) :
  let db' := snd (delete_attendance i db) in
  get_active_attendance prefix db'
  = (Return (map Attendance_of
               (filter (fun a => negb (AttendanceORM.id a =? i))
                  (listActiveByDatePrefix prefix (attendance db)))), db')
  /\ (String.prefix prefix (datetime.strftime (AttendanceORM.date r)) = true ->
      exists deleted,
        get_deleted_attendance prefix db' = (Return deleted, db')
        /\ In (Attendance_of (AttendanceORM.set_is_deleted true r)) deleted).
Proof.
  intros db'. subst db'.
  pose proof (find_attendance_id db r i Hfound) as Hid.
  rewrite (delete_attendance_found db i r Hfound).
  split.
  - rewrite get_active_attendance_eq.
    unfold assign_is_deleted_commit. cbn [snd attendance]. rewrite Hid.
    rewrite listActive_after_flag. reflexivity.
  - intros Hprefix. eexists. split; [apply get_deleted_attendance_eq|].
    apply in_map. unfold listDeletedByDatePrefix. apply filter_In. split.
    + apply (find_attendance_In _ i). apply flag_call_once. exact Hfound.
    + cbn. exact Hprefix.
Qed.

Lemma delete_moves_row_to_deleted_listing_witness :
  (find_attendance 2 store_march
   = Some (AttendanceORM.mk 2 1 (datetime.mkdate 2024 3 15) "Absent" false))
  /\ get_active_attendance "2024-03" (snd (delete_attendance 2 store_march))
     = (Return [Attendance.mk 1 (datetime.mkdate 2024 3 1) "Present" false],
        snd (delete_attendance 2 store_march))
  /\ (exists deleted,
        get_deleted_attendance "2024-03"
          (snd (delete_attendance 2 store_march))
        = (Return deleted, snd (delete_attendance 2 store_march))
        /\ In (Attendance.mk 1 (datetime.mkdate 2024 3 15) "Absent" true)
             deleted).
Proof.
  split; [reflexivity|]. split.
  - exact (proj1 (delete_moves_row_to_deleted_listing "2024-03" store_march
                    2 (AttendanceORM.mk 2 1 (datetime.mkdate 2024 3 15)
                         "Absent" false) eq_refl)).
  - exact (proj2 (delete_moves_row_to_deleted_listing "2024-03" store_march
                    2 (AttendanceORM.mk 2 1 (datetime.mkdate 2024 3 15)
                         "Absent" false) eq_refl) eq_refl).
Defined.

(** X3. After [restore_attendance] has succeeded on id [i], the deleted
    listing for any prefix is the former one without the rows of id [i],
    and, when the date of the row matches the prefix, the active listing
    contains that row with its flag cleared. *)
Theorem restore_moves_row_to_active_listing (prefix : string) (db : Store)
    (i : Z) (r : AttendanceORM.t)
    (Hfound : find_attendance i db = Some r) :
  let db' := snd (restore_attendance i db) in
  get_deleted_attendance prefix db'
  = (Return (map Attendance_of
               (filter (fun a => negb (AttendanceORM.id a =? i))
                  (listDeletedByDatePrefix prefix (attendance db)))), db')
  /\ (String.prefix prefix (datetime.strftime (AttendanceORM.date r)) = true ->
      exists active,
        get_active_attendance prefix db' = (Return active, db')
        /\ In (Attendance_of (AttendanceORM.set_is_deleted false r)) active).
Proof.
  intros db'. subst db'.
  pose proof (find_attendance_id db r i Hfound) as Hid.
  rewrite (restore_attendance_found db i r Hfound).
  split.
  - rewrite get_deleted_attendance_eq.
    unfold assign_is_deleted_commit. cbn [snd attendance]. rewrite Hid.
    rewrite listDeleted_after_unflag. reflexivity.
  - intros Hprefix. eexists. split; [apply get_active_attendance_eq|].
    apply in_map. unfold listActiveByDatePrefix. apply filter_In. split.
    + apply (find_attendance_In _ i). apply flag_call_once. exact Hfound.
    + cbn. exact Hprefix.
Qed.

Lemma restore_moves_row_to_active_listing_witness :
  (find_attendance 2 (snd (delete_attendance 2 store_march))
   = Some (AttendanceORM.mk 2 1 (datetime.mkdate 2024 3 15) "Absent" true))
  /\ get_deleted_attendance "2024-03"
       (snd (restore_attendance 2 (snd (delete_attendance 2 store_march))))
     = (Return [],
        snd (restore_attendance 2 (snd (delete_attendance 2 store_march))))
  /\ (exists active,
        get_active_attendance "2024-03"
          (snd (restore_attendance 2 (snd (delete_attendance 2 store_march))))
        = (Return active,
           snd (restore_attendance 2
                  (snd (delete_attendance 2 store_march))))
        /\ In (Attendance.mk 1 (datetime.mkdate 2024 3 15) "Absent" false)
             active).
Proof.
  split; [reflexivity|]. split.
  - exact (proj1 (restore_moves_row_to_active_listing "2024-03"
                    (snd (delete_attendance 2 store_march)) 2
                    (AttendanceORM.mk 2 1 (datetime.mkdate 2024 3 15)
                       "Absent" true) eq_refl)).
  - exact (proj2 (restore_moves_row_to_active_listing "2024-03"
                    (snd (delete_attendance 2 store_march)) 2
                    (AttendanceORM.mk 2 1 (datetime.mkdate 2024 3 15)
                       "Absent" true) eq_refl) eq_refl).
Defined.

(** A later assignment to the flag of the same row overrides an earlier
    one. *)
Lemma assign_overrides (db : Store) (r r' : AttendanceORM.t) (b b' : bool) :
  AttendanceORM.id r' = AttendanceORM.id r ->
  snd (assign_is_deleted_commit r' b' (snd (assign_is_deleted_commit r b db)))
  = snd (assign_is_deleted_commit r b' db).
Proof.
  intros Hid. unfold assign_is_deleted_commit.
  cbn [snd attendance students]. f_equal. rewrite Hid.
  rewrite map_map. apply map_ext. intros a.
  destruct (AttendanceORM.id a =? AttendanceORM.id r) eqn:Ha.
  - rewrite set_is_deleted_id, Ha. reflexivity.
  - rewrite Ha. reflexivity.
Qed.

(** X4. On a present id the last of two flag requests decides the whole
    store: restoring after a delete leaves the store that restoring alone
    leaves, and deleting after a restore the store that deleting alone
    leaves. *)
Theorem last_flag_request_wins (db : Store) (i : Z) (r : AttendanceORM.t)
    (Hfound : find_attendance i db = Some r) :
  snd (restore_attendance i (snd (delete_attendance i db)))
  = snd (restore_attendance i db)
  /\ snd (delete_attendance i (snd (restore_attendance i db)))
     = snd (delete_attendance i db).
Proof.
  pose proof (flag_call_once db i r true Hfound) as Hdel.
  pose proof (flag_call_once db i r false Hfound) as Hres.
  rewrite (delete_attendance_found db i r Hfound).
  rewrite (restore_attendance_found db i r Hfound).
  cbn [snd].
  rewrite (restore_attendance_found _ i _ Hdel).
  rewrite (delete_attendance_found _ i _ Hres).
  cbn [snd]. split; apply assign_overrides; reflexivity.
Qed.

Lemma last_flag_request_wins_witness :
  find_attendance 2 store_march
  = Some (AttendanceORM.mk 2 1 (datetime.mkdate 2024 3 15) "Absent" false)
  /\ snd (restore_attendance 2 (snd (delete_attendance 2 store_march)))
     = snd (restore_attendance 2 store_march).
Proof.
  split; [reflexivity|].
  exact (proj1 (last_flag_request_wins store_march 2
                  (AttendanceORM.mk 2 1 (datetime.mkdate 2024 3 15) "Absent"
                     false) eq_refl)).
Defined.

(* ------------------------------------------------------------------ *)
(** ** The listings together, and narrower prefixes *)

(** Splitting a selection by a second test loses and repeats nothing. *)
Lemma filter_split_Permutation {R} (f g : R -> bool) (l : list R) :
  Permutation
    (filter (fun r => negb (f r) && g r) l ++ filter (fun r => f r && g r) l)
    (filter g l).
Proof.
  induction l as [|r l IH]; [constructor|].
  cbn [filter].
  destruct (g r), (f r); cbn [negb andb app].
  - symmetry. apply Permutation_cons_app. symmetry. exact IH.
  - constructor. exact IH.
  - exact IH.
  - exact IH.
Qed.

(** X5. For every prefix the active and the deleted listing together are,
    up to order, the rows of the table whose date matches the prefix; for
    the empty prefix they are together every row [get_all_attendance]
    returns. *)
Theorem listings_cover_matching_rows (prefix : string) (db : Store) :
  (exists active deleted,
     get_active_attendance prefix db = (Return active, db)
     /\ get_deleted_attendance prefix db = (Return deleted, db)
     /\ Permutation (active ++ deleted)
          (map Attendance_of
             (filter (fun a => String.prefix prefix
                                 (datetime.strftime (AttendanceORM.date a)))
                (attendance db))))
  /\
  (exists active deleted everything,
     get_active_attendance "" db = (Return active, db)
     /\ get_deleted_attendance "" db = (Return deleted, db)
     /\ get_all_attendance db = (Return everything, db)
     /\ Permutation (active ++ deleted) everything).
Proof.
  split.
  - eexists. eexists.
    split; [apply get_active_attendance_eq|].
    split; [apply get_deleted_attendance_eq|].
    rewrite <- map_app. apply Permutation_map.
    apply (filter_split_Permutation AttendanceORM.is_deleted).
  - eexists. eexists. eexists.
    split; [apply get_active_attendance_eq|].
    split; [apply get_deleted_attendance_eq|].
    split; [reflexivity|].
    rewrite <- map_app. apply Permutation_map.
    unfold listActiveByDatePrefix, listDeletedByDatePrefix.
    eapply Permutation_trans;
      [apply (filter_split_Permutation AttendanceORM.is_deleted)|].
    rewrite (filter_ext _ (fun _ => true)); [apply Permutation_refl|].
    intros a. destruct (datetime.strftime (AttendanceORM.date a));
      reflexivity.
Qed.


Lemma prefix_empty (s : string) : String.prefix "" s = true.
Proof. destruct s; reflexivity. Qed.

Lemma prefix_trans (a b s : string) :
  String.prefix a b = true -> String.prefix b s = true ->
  String.prefix a s = true.
Proof.
  revert b s. induction a as [|c a IH]; intros b s Hab Hbs;
    [apply prefix_empty|].
  destruct b as [|d b]; [discriminate|].
  destruct s as [|e s]; [discriminate|].
  cbn [String.prefix] in *.
  destruct (ascii_dec c d) as [Hcd|]; [subst d | discriminate].
  destruct (ascii_dec c e); [|discriminate].
  exact (IH b s Hab Hbs).
Qed.

(** X6. Lengthening the prefix only narrows a listing: when [p] is a prefix
    of [q], the listing for [q] is the listing for [p] filtered by [q], for
    the active rows and for the deleted ones. *)
Theorem longer_prefix_narrows (p q : string) (db : Store)
    (Hpq : String.prefix p q = true) :
  get_active_attendance q db
  = (Return (map Attendance_of
               (filter (fun a => String.prefix q
                                   (datetime.strftime (AttendanceORM.date a)))
                  (listActiveByDatePrefix p (attendance db)))), db)
  /\ get_deleted_attendance q db
     = (Return (map Attendance_of
                  (filter (fun a => String.prefix q
                                      (datetime.strftime
                                         (AttendanceORM.date a)))
                     (listDeletedByDatePrefix p (attendance db)))), db).
Proof.
  rewrite get_active_attendance_eq, get_deleted_attendance_eq.
  unfold listActiveByDatePrefix, listDeletedByDatePrefix.
  rewrite !filter_filter_andb.
  split; do 3 f_equal; apply filter_ext; intros a;
    destruct (String.prefix q (datetime.strftime (AttendanceORM.date a)))
      eqn:Hq;
    rewrite ?andb_false_r; try reflexivity;
    rewrite (prefix_trans p q _ Hpq Hq), !andb_true_r; reflexivity.
Qed.

Lemma longer_prefix_narrows_witness :
  String.prefix "2024" "2024-03" = true
  /\ get_active_attendance "2024-03" store_march
     = (Return (map Attendance_of
                  (filter (fun a => String.prefix "2024-03"
                                      (datetime.strftime
                                         (AttendanceORM.date a)))
                     (listActiveByDatePrefix "2024" march_rows))),
        store_march).
Proof.
  split; [reflexivity|].
  exact (proj1 (longer_prefix_narrows "2024" "2024-03" store_march eq_refl)).
Defined.

(* ------------------------------------------------------------------ *)
(** ** Rendered dates *)

Lemma all_digits_string_of_uint (d : Decimal.uint) :
  all_digits (NilEmpty.string_of_uint d) = true.
Proof. induction d; cbn; auto. Qed.

Lemma all_digits_zeros_app (k : nat) (s : string) :
  all_digits (datetime.zeros k ++ s) = all_digits s.
Proof. induction k as [|k IH]; [reflexivity | exact IH]. Qed.

Lemma number_from_zeros_app (k : nat) (s : string) :
  number_from 0 (datetime.zeros k ++ s) = number_from 0 s.
Proof. induction k as [|k IH]; [reflexivity | exact IH]. Qed.

(** Reading the digits of a decimal numeral gives its value. *)
Lemma number_from_string_of_uint (d : Decimal.uint) (acc : nat) :
  number_from acc (NilEmpty.string_of_uint d) = Nat.of_uint_acc d acc.
Proof.
  revert acc. induction d; intros acc;
    cbn [NilEmpty.string_of_uint number_from Nat.of_uint_acc];
    [reflexivity | ..];
    rewrite IHd, Nat.tail_mul_spec; f_equal; digit_value; lia.
Qed.

Lemma number_from_digits (n : nat) :
  number_from 0 (datetime.digits n) = n.
Proof.
  unfold datetime.digits. rewrite number_from_string_of_uint.
  apply Unsigned.of_to.
Qed.

(** A padded field is made of digits and reads back as its number. *)
Lemma zfill_digits (w n : nat) :
  all_digits (datetime.zfill w (datetime.digits n)) = true
  /\ number_from 0 (datetime.zfill w (datetime.digits n)) = n.
Proof.
  unfold datetime.zfill.
  rewrite all_digits_zeros_app, number_from_zeros_app. split.
  - apply all_digits_string_of_uint.
  - apply number_from_digits.
Qed.

Lemma zfill_digits_inj (w n n' : nat) :
  datetime.zfill w (datetime.digits n)
  = datetime.zfill w (datetime.digits n') -> n = n'.
Proof.
  intros H. rewrite <- (proj2 (zfill_digits w n)), H.
  apply (proj2 (zfill_digits w n')).
Qed.

Lemma length_zeros_app (k : nat) (s : string) :
  String.length (datetime.zeros k ++ s) = (k + String.length s)%nat.
Proof. induction k as [|k IH]; [reflexivity | cbn; rewrite IH; reflexivity]. Qed.

Lemma string_length_app (s t : string) :
  String.length (s ++ t) = (String.length s + String.length t)%nat.
Proof. induction s as [|c s IH]; [reflexivity | cbn; rewrite IH; reflexivity]. Qed.

Lemma length_zfill (w : nat) (s : string) :
  String.length (datetime.zfill w s) = Nat.max w (String.length s).
Proof. unfold datetime.zfill. rewrite length_zeros_app. lia. Qed.

Lemma prefix_refl (s : string) : String.prefix s s = true.
Proof.
  induction s as [|c s IH]; [reflexivity|].
  cbn [String.prefix]. destruct (ascii_dec c c); [exact IH | congruence].
Qed.

Lemma prefix_length (a b : string) :
  String.prefix a b = true -> (String.length a <= String.length b)%nat.
Proof.
  revert b. induction a as [|c a IH]; intros b H; [cbn; lia|].
  destruct b as [|d b]; [discriminate|].
  cbn [String.prefix] in H. destruct (ascii_dec c d); [|discriminate].
  specialize (IH b H). cbn. lia.
Qed.

Lemma prefix_full (a b : string) :
  String.prefix a b = true ->
  (String.length b <= String.length a)%nat -> a = b.
Proof.
  revert b. induction a as [|c a IH]; intros b H Hlen.
  - destruct b; [reflexivity | cbn in Hlen; lia].
  - destruct b as [|d b]; [discriminate|].
    cbn [String.prefix] in H. destruct (ascii_dec c d); [|discriminate].
    subst d. f_equal. apply IH; [exact H | cbn in Hlen; lia].
Qed.

(** Two digit fields closed by a dash: a prefix match aligns the dashes. *)
Lemma prefix_field (y y' r r' : string) :
  all_digits y = true -> all_digits y' = true ->
  String.prefix (y ++ String "-" r) (y' ++ String "-" r') = true ->
  y = y' /\ String.prefix r r' = true.
Proof.
  revert y'. induction y as [|c y IH]; intros y' Hy Hy' H.
  - destruct y' as [|c' y'].
    + cbn [append String.prefix] in H.
      destruct (ascii_dec "-" "-"); [split; [reflexivity | exact H]|].
      discriminate.
    + cbn [append String.prefix] in H. cbn in Hy'.
      apply andb_true_iff in Hy'. destruct Hy' as [Hc' _].
      destruct (ascii_dec "-" c'); [subst c'; discriminate | discriminate].
  - cbn in Hy. apply andb_true_iff in Hy. destruct Hy as [Hc Hy].
    destruct y' as [|c' y'].
    + cbn [append String.prefix] in H.
      destruct (ascii_dec c "-"); [subst c; discriminate | discriminate].
    + cbn [append String.prefix] in H. cbn in Hy'.
      apply andb_true_iff in Hy'. destruct Hy' as [_ Hy'].
      destruct (ascii_dec c c'); [subst c' | discriminate].
      destruct (IH y' Hy Hy' H) as [Heq Hr]. subst y'. split;
        [reflexivity | exact Hr].
Qed.

(** A day up to 31 is rendered on two characters. *)
Lemma length_day (n : nat) :
  (n <=? 31)%nat = true ->
  String.length (datetime.zfill 2 (datetime.digits n)) = 2%nat.
Proof.
  intros H. apply Nat.leb_le in H.
  do 32 (destruct n as [|n]; [reflexivity|]). lia.
Qed.

Lemma length_month (n : nat) :
  (n <=? 12)%nat = true ->
  String.length (datetime.zfill 2 (datetime.digits n)) = 2%nat.
Proof.
  intros H. apply Nat.leb_le in H.
  do 13 (destruct n as [|n]; [reflexivity|]). lia.
Qed.

Lemma In_years (n : nat) :
  (n <=? MAXYEAR)%nat = true -> In n (seq 0 (S MAXYEAR)).
Proof. intros H. apply Nat.leb_le in H. apply in_seq. lia. Qed.

(** Every year up to [MAXYEAR] is rendered on at most four characters. *)
Lemma length_year_checked :
  forallb (fun y => (String.length (datetime.digits y) <=? 4)%nat)
    (seq 0 (S MAXYEAR)) = true.
Proof. vm_compute. reflexivity. Qed.

Lemma length_year (n : nat) :
  (n <=? MAXYEAR)%nat = true ->
  (String.length (datetime.digits n) <= 4)%nat.
Proof.
  intros H. pose proof length_year_checked as Hall.
  rewrite forallb_forall in Hall.
  apply Nat.leb_le. apply Hall. apply In_years. exact H.
Qed.

Lemma digits_inj (n n' : nat) :
  datetime.digits n = datetime.digits n' -> n = n'.
Proof.
  intros H. rewrite <- (number_from_digits n), H.
  apply number_from_digits.
Qed.

Lemma filter_none {R} (l : list R) : filter (fun _ => false) l = [].
Proof. induction l as [|r l IH]; [reflexivity | exact IH]. Qed.

Lemma datetime_eqb_eq (a b : datetime.date) :
  datetime.eqb a b = true <-> a = b.
Proof.
  unfold datetime.eqb. split.
  - intros H. apply andb_true_iff in H. destruct H as [H Hd].
    apply andb_true_iff in H. destruct H as [Hy Hm].
    apply Nat.eqb_eq in Hy, Hm, Hd.
    destruct a, b. cbn in *. congruence.
  - intros ->. rewrite !Nat.eqb_refl. reflexivity.
Qed.

(** A date in range is rendered on at most ten characters. *)
Lemma length_strftime (d : datetime.date) :
  date_in_range d = true ->
  (String.length (datetime.strftime d) <= 10)%nat.
Proof.
  unfold date_in_range. intros H.
  repeat (apply andb_true_iff in H; destruct H as [H ?]).
  unfold datetime.strftime. rewrite !string_length_app.
  rewrite length_month, length_day by assumption.
  pose proof (length_year (datetime.year d)) as Hy.
  cbn [String.length]. specialize (Hy ltac:(assumption)). lia.
Qed.

(** The rendering of one date is a prefix of the rendering of another
    (whose day has two digits) only when the dates are equal. *)
Lemma strftime_prefix_eq (d d' : datetime.date) :
  (datetime.day d' <=? 31)%nat = true ->
  String.prefix (datetime.strftime d) (datetime.strftime d') = true ->
  d = d'.
Proof.
  intros Hday H. unfold datetime.strftime in H.
  change ("-" ++ ?x) with (String "-" x) in H.
  apply prefix_field in H; try apply all_digits_string_of_uint.
  destruct H as [Hy H].
  change ("-" ++ ?x) with (String "-" x) in H.
  apply prefix_field in H; try apply zfill_digits.
  destruct H as [Hm H].
  apply prefix_full in H.
  - apply digits_inj in Hy. apply zfill_digits_inj in Hm, H.
    destruct d, d'. cbn in *. congruence.
  - rewrite (length_day _ Hday), length_zfill. lia.
Qed.








(** X7. When every stored date is in range, the listing for the prefix
    that [strftime] itself gives for a date [d] (the year without leading
    zeros) returns exactly the rows dated [d] (not deleted for the active
    listing, deleted for the other), in table order. *)
Theorem full_date_prefix_selects_the_day (d : datetime.date) (db : Store)
    (Hrange : forallb (fun a => date_in_range (AttendanceORM.date a))
                (attendance db) = true) :
  get_active_attendance (datetime.strftime d) db
  = (Return (map Attendance_of
               (filter (fun a => negb (AttendanceORM.is_deleted a)
                                 && datetime.eqb (AttendanceORM.date a) d)
                  (attendance db))), db)
  /\ get_deleted_attendance (datetime.strftime d) db
     = (Return (map Attendance_of
                  (filter (fun a => AttendanceORM.is_deleted a
                                    && datetime.eqb (AttendanceORM.date a) d)
                     (attendance db))), db).
Proof.
  assert (Hpt : forall a, In a (attendance db) ->
            String.prefix (datetime.strftime d)
              (datetime.strftime (AttendanceORM.date a))
            = datetime.eqb (AttendanceORM.date a) d).
  { intros a Ha. rewrite forallb_forall in Hrange.
    specialize (Hrange a Ha). unfold date_in_range in Hrange.
    apply andb_true_iff in Hrange. destruct Hrange as [_ Hday].
    destruct (datetime.eqb (AttendanceORM.date a) d) eqn:He.
    - apply datetime_eqb_eq in He. rewrite He. apply prefix_refl.
    - destruct (String.prefix _ _) eqn:Hp; [|reflexivity].
      apply (strftime_prefix_eq d _ Hday) in Hp.
      rewrite <- Hp in He.
      rewrite (proj2 (datetime_eqb_eq d d) eq_refl) in He. discriminate. }
  rewrite get_active_attendance_eq, get_deleted_attendance_eq.
  unfold listActiveByDatePrefix, listDeletedByDatePrefix.
  split; do 3 f_equal; apply filter_ext_in; intros a Ha;
    rewrite (Hpt a Ha); reflexivity.
Qed.

Lemma full_date_prefix_selects_the_day_witness :
  (forallb (fun a => date_in_range (AttendanceORM.date a))
     (attendance store_march) = true
   /\ get_active_attendance "2024-03-15" store_march
      = (Return [Attendance.mk 1 (datetime.mkdate 2024 3 15) "Absent" false],
         store_march))
  /\
  (forallb (fun a => date_in_range (AttendanceORM.date a))
     (attendance store_year_999) = true
   /\ get_active_attendance "999-03-05" store_year_999
      = (Return [Attendance.mk 1 (datetime.mkdate 999 3 5) "Present" false],
         store_year_999)).
Proof.
  split; (split; [reflexivity|]).
  - exact (proj1 (full_date_prefix_selects_the_day
                    (datetime.mkdate 2024 3 15) store_march eq_refl)).
  - exact (proj1 (full_date_prefix_selects_the_day
                    (datetime.mkdate 999 3 5) store_year_999 eq_refl)).
Defined.

(** X8. When every stored date is in range, a prefix of more than ten
    characters matches no row: both listings are empty. *)
Theorem overlong_prefix_lists_nothing (prefix : string) (db : Store)
    (Hlong : (10 < String.length prefix)%nat)
    (Hrange : forallb (fun a => date_in_range (AttendanceORM.date a))
                (attendance db) = true) :
  get_active_attendance prefix db = (Return [], db)
  /\ get_deleted_attendance prefix db = (Return [], db).
Proof.
  assert (Hpt : forall a, In a (attendance db) ->
            String.prefix prefix (datetime.strftime (AttendanceORM.date a))
            = false).
  { intros a Ha. rewrite forallb_forall in Hrange.
    specialize (Hrange a Ha).
    destruct (String.prefix _ _) eqn:Hp; [|reflexivity].
    apply prefix_length in Hp.
    pose proof (length_strftime _ Hrange) as Hten. lia. }
  rewrite get_active_attendance_eq, get_deleted_attendance_eq.
  unfold listActiveByDatePrefix, listDeletedByDatePrefix.
  assert (Hnone : forall f : AttendanceORM.t -> bool,
            filter (fun a => f a
                             && String.prefix prefix
                                  (datetime.strftime (AttendanceORM.date a)))
              (attendance db) = []).
  { intros f. rewrite (filter_ext_in _ (fun _ => false)).
    - apply filter_none.
    - intros a Ha. rewrite (Hpt a Ha). apply andb_false_r. }
  rewrite (Hnone (fun a => negb (AttendanceORM.is_deleted a))).
  rewrite (Hnone AttendanceORM.is_deleted).
  split; reflexivity.
Qed.

Lemma overlong_prefix_lists_nothing_witness :
  ((10 < String.length "2024-03-15T")%nat
   /\ forallb (fun a => date_in_range (AttendanceORM.date a))
        (attendance store_march) = true)
  /\ get_active_attendance "2024-03-15T" store_march
     = (Return [], store_march).
Proof.
  split; [split; [cbn; lia | reflexivity]|].
  refine (proj1 (overlong_prefix_lists_nothing "2024-03-15T" store_march
                   _ eq_refl)).
  cbn; lia.
Defined.

(* ------------------------------------------------------------------ *)
(** ** Students: answers, keys and names *)

(** What one request does to the students table: nothing, or one row
    stored under the next key for a name that was free. *)
Lemma serve_students (r : Request) (db : Store) :
  students (serve r db) = students db
  \/ exists student,
       has_student_named (PostStudent.name student) db = false
       /\ students (serve r db)
          = insert_by_key StudentORM.id
              (StudentORM.mk (next_id (map StudentORM.id (students db)))
                 (PostStudent.name student)
                 (PostStudent.class_name student))
              (students db).
Proof.
  destruct r as [student| |d| |p|p|i|i]; cbn [serve].
  - destruct (has_student_named (PostStudent.name student) db) eqn:Hn.
    + left. rewrite (add_student_taken db student Hn). reflexivity.
    + right. exists student. split; [exact Hn|].
      rewrite (add_student_free db student Hn). reflexivity.
  - left. reflexivity.
  - left. rewrite add_attendance_always_raises. reflexivity.
  - left. reflexivity.
  - left. reflexivity.
  - left. reflexivity.
  - left. destruct (find_attendance i db) as [r|] eqn:Hf.
    + rewrite (delete_attendance_found db i r Hf). reflexivity.
    + rewrite (proj1 (flag_request_not_found db i Hf)). reflexivity.
  - left. destruct (find_attendance i db) as [r|] eqn:Hf.
    + rewrite (restore_attendance_found db i r Hf). reflexivity.
    + rewrite (proj2 (flag_request_not_found db i Hf)). reflexivity.
Qed.

Lemma absent_name_not_In (name : string) (db : Store) :
  has_student_named name db = false ->
  ~ In name (map StudentORM.name (students db)).
Proof.
  unfold has_student_named. intros H Hin.
  apply in_map_iff in Hin. destruct Hin as [s [Hs Hin]].
  assert (Hex : existsb (fun s => String.eqb (StudentORM.name s) name)
                  (students db) = true).
  { apply existsb_exists. exists s. split; [exact Hin|].
    rewrite Hs. apply String.eqb_refl. }
  congruence.
Qed.

(** As long as no key has reached [MAX_ROWID], the next key is larger
    than every key in use. *)
Lemma largest_above (z : Z) (zs : list Z) (y : Z) :
  In y (z :: zs) -> y <= fold_right Z.max z zs.
Proof.
  induction zs as [|x zs IH]; cbn [fold_right].
  - intros [->|[]]. lia.
  - intros [->|[->|Hin]].
    + specialize (IH (or_introl eq_refl)). lia.
    + lia.
    + specialize (IH (or_intror Hin)). lia.
Qed.

Lemma largest_below (z : Z) (zs : list Z) (bound : Z) :
  Forall (fun y => y < bound) (z :: zs) -> fold_right Z.max z zs < bound.
Proof.
  intros H. inversion H as [|? ? Hz Hzs]; subst.
  induction Hzs as [|x zs Hx _ IH]; cbn [fold_right]; [exact Hz|].
  assert (Hrec : fold_right Z.max z zs < bound).
  { apply IH. constructor; [exact Hz|]. inversion H as [|? ? _ Hall]; subst.
    inversion Hall; assumption. }
  lia.
Qed.

Lemma next_id_above (ids : list Z) (y : Z) :
  Forall (fun k => k < MAX_ROWID) ids -> In y ids -> y < next_id ids.
Proof.
  intros Hall Hin. destruct ids as [|z zs]; [destruct Hin|].
  unfold next_id.
  pose proof (largest_below z zs MAX_ROWID Hall) as Hlt.
  pose proof (largest_above z zs y Hin) as Hle.
  destruct (Z.ltb_spec (fold_right Z.max z zs) MAX_ROWID); lia.
Qed.

Lemma serve_all_cons (r : Request) (rs : list Request) (db : Store) :
  serve_all (r :: rs) db = serve_all rs (serve r db).
Proof. reflexivity. Qed.

(** X9. Whatever requests are served, student names stay pairwise distinct
    if they were: no sequence of requests registers a name twice. *)
Theorem requests_keep_names_distinct (rs : list Request) (db : Store)
    (Hnames : NoDup (map StudentORM.name (students db))) :
  NoDup (map StudentORM.name (students (serve_all rs db))).
Proof.
  revert db Hnames. induction rs as [|r rs IH]; intros db Hnames;
    [exact Hnames|].
  rewrite serve_all_cons. apply IH.
  destruct (serve_students r db) as [Heq|[student [Hfree Heq]]];
    rewrite Heq; [exact Hnames|].
  eapply Permutation_NoDup.
  - symmetry. apply Permutation_map. apply insert_by_key_Permutation.
  - cbn [map StudentORM.name]. constructor; [|exact Hnames].
    apply absent_name_not_In. exact Hfree.
Qed.

Lemma requests_keep_names_distinct_witness :
  NoDup (map StudentORM.name (students empty_store))
  /\ NoDup (map StudentORM.name
              (students
                 (serve_all [POST_students alice; POST_students alice;
                             POST_students (PostStudent.mk "Bob" "10A")]
                    empty_store))).
Proof.
  split; [constructor|].
  apply (requests_keep_names_distinct
           [POST_students alice; POST_students alice;
            POST_students (PostStudent.mk "Bob" "10A")] empty_store).
  constructor.
Defined.

(** One request leaves the attendance rows as they were, flags aside. *)
Lemma serve_row_data (r : Request) (db : Store) :
  map row_data (attendance (serve r db)) = map row_data (attendance db).
Proof.
  assert (Hflag : forall rec b,
            map row_data
              (attendance (snd (assign_is_deleted_commit rec b db)))
            = map row_data (attendance db)).
  { intros rec b. unfold assign_is_deleted_commit. cbn [snd attendance].
    rewrite map_map. apply map_ext. intros a.
    destruct (AttendanceORM.id a =? AttendanceORM.id rec); reflexivity. }
  destruct r as [student| |d| |p|p|i|i]; cbn [serve].
  - destruct (has_student_named (PostStudent.name student) db) eqn:Hn.
    + rewrite (add_student_taken db student Hn). reflexivity.
    + rewrite (add_student_free db student Hn). reflexivity.
  - reflexivity.
  - rewrite add_attendance_always_raises. reflexivity.
  - reflexivity.
  - reflexivity.
  - reflexivity.
  - destruct (find_attendance i db) as [r|] eqn:Hf.
    + rewrite (delete_attendance_found db i r Hf). apply Hflag.
    + rewrite (proj1 (flag_request_not_found db i Hf)). reflexivity.
  - destruct (find_attendance i db) as [r|] eqn:Hf.
    + rewrite (restore_attendance_found db i r Hf). apply Hflag.
    + rewrite (proj2 (flag_request_not_found db i Hf)). reflexivity.
Qed.

(** X11. No sequence of requests adds, removes or rewrites an attendance
    row: id, student_id, date and status of every row stay as they were,
    in the same order, and only flags can change.  In particular a store
    without attendance rows never gets one. *)
Theorem requests_keep_attendance_rows (rs : list Request) (db : Store) :
  map row_data (attendance (serve_all rs db))
  = map row_data (attendance db)
  /\ attendance (serve_all rs (mkStore (students db) [])) = [].
Proof.
  assert (Hall : forall rs db,
            map row_data (attendance (serve_all rs db))
            = map row_data (attendance db)).
  { clear rs db. induction rs as [|r rs IH]; intros db; [reflexivity|].
    rewrite serve_all_cons, IH. apply serve_row_data. }
  split; [apply Hall|].
  specialize (Hall rs (mkStore (students db) [])).
  cbn [attendance map] in Hall.
  destruct (attendance (serve_all rs (mkStore (students db) [])));
    [reflexivity | discriminate].
Qed.

(** X12. [add_student] never raises: it answers with a POST envelope that
    echoes the submitted student, leaves the attendance table alone, and
    afterwards some student carries the submitted name, whichever way the
    call went. *)
Theorem add_student_always_answers (student : PostStudent.t) (db : Store) :
  exists data : string,
    fst (add_student student db)
    = Return (ResponseModel.mk "POST" (PostStudent.dict student) "Student"
                data)
    /\ attendance (snd (add_student student db)) = attendance db
    /\ has_student_named (PostStudent.name student)
         (snd (add_student student db)) = true.
Proof.
  destruct (has_student_named (PostStudent.name student) db) eqn:Hn.
  - rewrite (add_student_taken db student Hn). eexists.
    split; [reflexivity|]. split; [reflexivity | exact Hn].
  - rewrite (add_student_free db student Hn). eexists.
    split; [reflexivity|]. split; [reflexivity|].
    unfold has_student_named. cbn [snd students].
    rewrite existsb_insert_by_key. cbn [StudentORM.name].
    rewrite String.eqb_refl. reflexivity.
Qed.

(** X13. After [add_student] has registered a free name in a table whose
    keys are all below the largest 64-bit integer, [get_students] returns
    what it returned before followed by the submitted student. *)
Theorem add_student_then_get_students (student : PostStudent.t) (db : Store)
    (Hfree : has_student_named (PostStudent.name student) db = false)
    (Hkeys : forallb (fun s => StudentORM.id s <? MAX_ROWID) (students db)
             = true) :
  exists before : list PostStudent.t,
    get_students db = (Return before, db)
    /\ get_students (snd (add_student student db))
       = (Return (before ++ [student])%list, snd (add_student student db)).
Proof.
  rewrite (add_student_free db student Hfree). cbn [snd].
  eexists. split; [reflexivity|].
  unfold get_students, bind, query_all, ret. cbn [students].
  assert (Hall : forall l : list StudentORM.t, filter (fun _ => true) l = l).
  { induction l as [|s l IH]; [reflexivity | cbn; rewrite IH; reflexivity]. }
  rewrite insert_by_key_last.
  - rewrite !Hall, map_app. destruct student. reflexivity.
  - cbn [StudentORM.id]. rewrite forallb_forall in Hkeys.
    apply Forall_forall. intros s Hs.
    apply next_id_above; [|apply in_map; exact Hs].
    apply Forall_forall. intros k Hk.
    apply in_map_iff in Hk. destruct Hk as [s' [<- Hs']].
    apply Z.ltb_lt. apply Hkeys. exact Hs'.
Qed.

Lemma add_student_then_get_students_witness :
  (has_student_named "Bob" store_alice = false
   /\ forallb (fun s => StudentORM.id s <? MAX_ROWID) (students store_alice)
      = true)
  /\ exists before : list PostStudent.t,
       get_students store_alice = (Return before, store_alice)
       /\ get_students
            (snd (add_student (PostStudent.mk "Bob" "10B") store_alice))
          = (Return (before ++ [PostStudent.mk "Bob" "10B"])%list,
             snd (add_student (PostStudent.mk "Bob" "10B") store_alice)).
Proof.
  split; [split; reflexivity|].
  exact (add_student_then_get_students (PostStudent.mk "Bob" "10B")
           store_alice eq_refl eq_refl).
Defined.

(* ------------------------------------------------------------------ *)
(** ** The full listing, and [add_attendance] on every input *)

Lemma attendance_isValid_always_raises_any (data : dict) :
  attendance_isValid data = Raise (NameError "x").
Proof. reflexivity. Qed.

(** X14. [add_attendance] fails on every payload and every store with the
    [AttributeError] its exception handler runs into, and the store is
    left exactly as it was: no request body makes it write. *)
Theorem add_attendance_never_writes (new_attendance_data : dict)
    (db : Store) :
  add_attendance new_attendance_data db
  = (Raise (AttributeError "dict" "dict"), db).
Proof.
  unfold add_attendance.
  apply add_attendance_handler_raises with (e := NameError "x").
  unfold bind, lift.
  rewrite (attendance_isValid_always_raises_any new_attendance_data).
  reflexivity.
Qed.

(** X15. A soft-deleted row stays in the full listing: after
    [delete_attendance] has succeeded, [get_all_attendance] returns as many
    rows as before, the deleted row among them with its flag set. *)
Theorem delete_keeps_row_in_full_listing (db : Store) (i : Z)
    (r : AttendanceORM.t) (Hfound : find_attendance i db = Some r) :
  let db' := snd (delete_attendance i db) in
  exists before after : list Attendance.t,
    get_all_attendance db = (Return before, db)
    /\ get_all_attendance db' = (Return after, db')
    /\ List.length after = List.length before
    /\ In (Attendance_of (AttendanceORM.set_is_deleted true r)) after.
Proof.
  intros db'. subst db'.
  pose proof (flag_call_once db i r true Hfound) as Hdel.
  rewrite (delete_attendance_found db i r Hfound).
  eexists. eexists.
  split; [reflexivity|]. split; [reflexivity|].
  unfold query_all.
  assert (Hall : forall l : list AttendanceORM.t,
            filter (fun _ => true) l = l).
  { induction l as [|a l IH]; [reflexivity | cbn; rewrite IH; reflexivity]. }
  rewrite !Hall. split.
  - unfold assign_is_deleted_commit. cbn [snd attendance].
    rewrite !length_map. reflexivity.
  - apply in_map. apply (find_attendance_In _ i). exact Hdel.
Qed.

Lemma delete_keeps_row_in_full_listing_witness :
  find_attendance 2 store_march
  = Some (AttendanceORM.mk 2 1 (datetime.mkdate 2024 3 15) "Absent" false)
  /\ exists before after : list Attendance.t,
       get_all_attendance store_march = (Return before, store_march)
       /\ get_all_attendance (snd (delete_attendance 2 store_march))
          = (Return after, snd (delete_attendance 2 store_march))
       /\ List.length after = List.length before
       /\ In (Attendance.mk 1 (datetime.mkdate 2024 3 15) "Absent" true)
            after.
Proof.
  split; [reflexivity|].
  exact (delete_keeps_row_in_full_listing store_march 2
           (AttendanceORM.mk 2 1 (datetime.mkdate 2024 3 15) "Absent" false)
           eq_refl).
Defined.
